(** * prometheus-api-metrics: the metrics middleware

    A shallow embedding of [src/metrics-middleware.js] and the properties of
    its route classifier ([_getRoute]), completion handler
    ([_handleResponse]), request interceptor ([middleware]) and factory
    ([module.exports]).

    Modelling conventions.
    - A JavaScript value that is either [undefined] or a string is an
      [option string]; [None] is [undefined].  The empty string is falsy.
    - What [parseInt] returns is [NaN], an integer that is a double, or an
      infinity; a status code is an integer ([Z]).
    - An exception is a [Throw]; the state reached when it is raised is kept.
    - The prom-client registry is a finite map from metric names to metric
      definitions; a metric object is identified by its registered name. *)

From Stdlib Require Import ZArith QArith String Ascii.
From stdpp Require Import gmap strings list fin_maps.

Local Open Scope string_scope.
#[local] Arguments String.append !_ _ / : simpl nomatch.

(** ** JavaScript string primitives *)

Module JsString.

(** [strip_prefix p s] is [Some rest] exactly when [s = p +:+ rest]. *)
Fixpoint strip_prefix (p s : string) : option string :=
  match p, s with
  | EmptyString, _ => Some s
  | String a p', String b s' =>
      if Ascii.eqb a b then strip_prefix p' s' else None
  | String _ _, EmptyString => None
  end.

(** The first occurrence of [p] in [s], as the text before it and the text
    after it (StringIndexOf from position 0, then the two substrings that
    [String.prototype.replace] takes around the match). *)
Fixpoint split_first (p s : string) : option (string * string) :=
  match strip_prefix p s with
  | Some rest => Some (EmptyString, rest)
  | None =>
      match s with
      | EmptyString => None
      | String c s' =>
          match split_first p s' with
          | Some (before, after) => Some (String c before, after)
          | None => None
          end
      end
  end.

(** GetSubstitution for a string pattern (no capture groups): in the
    replacement text [$$] is a dollar sign, [$&] the matched text, [$`] the
    text before the match and [$'] the text after it; every other character
    stands for itself. *)
Fixpoint get_substitution (matched before after tmpl : string) : string :=
  match tmpl with
  | EmptyString => EmptyString
  | String c t =>
      if Ascii.eqb c "$" then
        match t with
        | EmptyString => String c EmptyString
        | String d t' =>
            if Ascii.eqb d "$" then
              String "$" (get_substitution matched before after t')
            else if Ascii.eqb d "&" then
              matched +:+ get_substitution matched before after t'
            else if Ascii.eqb d "`" then
              before +:+ get_substitution matched before after t'
            else if Ascii.eqb d "'" then
              after +:+ get_substitution matched before after t'
            else String c (get_substitution matched before after t)
        end
      else String c (get_substitution matched before after t)
  end.

(** [s.replace(search, repl)] with a string [search]: only the first
    occurrence is replaced. *)
Definition replace (s search repl : string) : string :=
  match split_first search s with
  | None => s
  | Some (before, after) =>
      before +:+ get_substitution search before after repl +:+ after
  end.

(** [s] has no dollar sign. *)
Fixpoint dollar_free (s : string) : bool :=
  match s with
  | EmptyString => true
  | String c t => negb (Ascii.eqb c "$") && dollar_free t
  end.

(** Replacement of every occurrence, left to right, without rescanning the
    inserted text ([replaceAll]); [fuel] bounds the number of characters
    that remain to be scanned. *)
Fixpoint replace_all_from (fuel : nat) (s search repl : string) : string :=
  match fuel with
  | O => s
  | S fuel' =>
      match strip_prefix search s with
      | Some rest =>
          match search with
          | EmptyString =>
              match s with
              | EmptyString => repl
              | String c s' =>
                  repl +:+ String c (replace_all_from fuel' s' search repl)
              end
          | String _ _ => repl +:+ replace_all_from fuel' rest search repl
          end
      | None =>
          match s with
          | EmptyString => EmptyString
          | String c s' => String c (replace_all_from fuel' s' search repl)
          end
      end
  end.

Definition replace_all (s search repl : string) : string :=
  replace_all_from (S (String.length s)) s search repl.

End JsString.

(** ** Errors *)

Inductive Error :=
| TypeError          (* a property read or a call on [undefined] or [null] *)
| RegistrationError  (* prom-client: the metric name is already registered *)
| InvalidLabel.      (* prom-client: a label the metric was not declared with *)

Inductive result (A : Type) :=
| Ok (a : A)
| Throw (e : Error).
Arguments Ok {A} a.
Arguments Throw {A} e.

Definition result_bind {A B} (r : result A) (k : A -> result B) : result B :=
  match r with
  | Ok a => k a
  | Throw e => Throw e
  end.

#[global] Instance result_mbind : MBind result :=
  fun A B k r => result_bind r k.
#[global] Instance result_mret : MRet result := @Ok.

(** ** Values that are [undefined] or a string *)

(** Truthiness of a value that is [undefined] or a string. *)
Definition truthy (v : option string) : bool :=
  match v with
  | Some s => negb (String.eqb s "")
  | None => false
  end.

(** ToString of a value that is [undefined] or a string. *)
Definition ToString (v : option string) : string :=
  match v with
  | Some s => s
  | None => "undefined"
  end.

(** ** Numbers and [parseInt] *)

Module JsNumber.

(** A number, as far as the middleware meets one: [NaN], a double whose
    value is an integer, or an infinity.  [Finite 0] stands for both
    zeros. *)
Inductive number :=
| NaN
| Finite (z : Z)
| Infinity (negative : bool).

(** StrWhiteSpaceChar among the characters a header value can hold. *)
Definition is_white_space (c : ascii) : bool :=
  let n := nat_of_ascii c in
  (Nat.eqb n 9 || Nat.eqb n 10 || Nat.eqb n 11 || Nat.eqb n 12
   || Nat.eqb n 13 || Nat.eqb n 32 || Nat.eqb n 160)%bool.

Fixpoint trim_start (s : string) : string :=
  match s with
  | String c t => if is_white_space c then trim_start t else s
  | EmptyString => s
  end.

(** The value of [c] as a digit, in base 36. *)
Definition digit_value (c : ascii) : option Z :=
  let n := Z.of_nat (nat_of_ascii c) in
  if (48 <=? n)%Z && (n <=? 57)%Z then Some (n - 48)%Z
  else if (97 <=? n)%Z && (n <=? 122)%Z then Some (n - 87)%Z
  else if (65 <=? n)%Z && (n <=? 90)%Z then Some (n - 55)%Z
  else None.

Definition radix_digit (radix : Z) (c : ascii) : option Z :=
  match digit_value c with
  | Some d => if (d <? radix)%Z then Some d else None
  | None => None
  end.

(** The longest prefix of radix digits, as a number; [acc] is [None] as long
    as no digit was read. *)
Fixpoint parse_digits (radix : Z) (s : string) (acc : option Z) : option Z :=
  match s with
  | EmptyString => acc
  | String c t =>
      match radix_digit radix c with
      | Some d => parse_digits radix t (Some (radix * default 0%Z acc + d)%Z)
      | None => acc
      end
  end.

(** The integer that [parseInt(string)] reads without a radix argument, its
    sign included; [None] when it reads no digit. *)
Definition mathematical_value (v : option string) : option Z :=
  let s := trim_start (ToString v) in
  let '(sign, s) :=
    match s with
    | String c t =>
        if Ascii.eqb c "-" then ((-1)%Z, t)
        else if Ascii.eqb c "+" then (1%Z, t)
        else (1%Z, s)
    | EmptyString => (1%Z, s)
    end in
  let '(radix, s) :=
    match s with
    | String z (String x t) =>
        if Ascii.eqb z "0" && (Ascii.eqb x "x" || Ascii.eqb x "X")
        then (16%Z, t) else (10%Z, s)
    | _ => (10%Z, s)
    end in
  Z.mul sign <$> parse_digits radix s None.

(** The double nearest to the integer [n], which is not negative: [n] itself
    when it has at most 53 bits, otherwise [n] rounded to 53 bits, a tie
    going to the even neighbour; [None] when the result is past the largest
    double. *)
Definition round_magnitude (n : Z) : option Z :=
  let bits := if (n =? 0)%Z then 0%Z else (Z.log2 n + 1)%Z in
  if (bits <=? 53)%Z then Some n
  else
    let shift := (bits - 53)%Z in
    let q := Z.shiftr n shift in
    let r := Z.land n (Z.ones shift) in
    let half := Z.shiftl 1 (shift - 1) in
    let q' := if (r <? half)%Z then q
              else if (half <? r)%Z then (q + 1)%Z
              else if Z.even q then q else (q + 1)%Z in
    let m := Z.shiftl q' shift in
    if (Z.shiftl 1 1024 <=? m)%Z then None else Some m.

(** The number value of an integer. *)
Definition to_double (z : Z) : number :=
  match round_magnitude (Z.abs z) with
  | Some m => Finite (Z.sgn z * m)
  | None => Infinity (z <? 0)%Z
  end.

(** [parseInt(string)].  The language leaves the rounding of a numeral of
    more than twenty digits to the implementation; the model rounds it to
    the nearest double. *)
Definition parseInt (v : option string) : number :=
  match mathematical_value v with
  | Some z => to_double z
  | None => NaN
  end.

(** [parseInt(v) || 0]: [NaN] and zero are falsy. *)
Definition parseInt_or_0 (v : option string) : number :=
  match parseInt v with
  | NaN => Finite 0
  | n => n
  end.

(** [isFinite] *)
Definition is_finite (n : number) : bool :=
  match n with
  | Finite _ => true
  | NaN | Infinity _ => false
  end.

End JsNumber.

Coercion JsNumber.Finite : Z >-> JsNumber.number.

(** Decimal numerals, to say what [parseInt] reads. *)
Definition is_decimal_digit (c : ascii) : bool :=
  let n := nat_of_ascii c in (Nat.leb 48 n && Nat.leb n 57)%bool.

Fixpoint all_decimal (s : string) : bool :=
  match s with
  | EmptyString => true
  | String c t => is_decimal_digit c && all_decimal t
  end.

Fixpoint decimal_value (acc : Z) (s : string) : Z :=
  match s with
  | EmptyString => acc
  | String c t =>
      decimal_value (10 * acc + (Z.of_nat (nat_of_ascii c) - 48))%Z t
  end.

(** A header value that is empty or whose first character is not white
    space, a sign or a decimal digit. *)
Definition starts_non_numeric (s : string) : bool :=
  match s with
  | EmptyString => true
  | String c _ =>
      negb (JsNumber.is_white_space c || Ascii.eqb c "-" || Ascii.eqb c "+"
            || is_decimal_digit c)
  end.

(** ** The request and response objects, as far as the middleware reads them *)

(** [req.swagger]: the descriptor swagger middleware attaches. *)
Record Swagger := { apiPath : option string }.

(** [req.route]: the route object of the host framework. *)
Record Route := { path : string }.

(** [req.params].  [NoParams] stands for every value whose [typeof] is not
    ['object'] ([undefined] included); [NullParams] is [null], whose [typeof]
    is ['object'].  The entries of an object are listed in the order of
    [Object.keys]; a value is a string or [undefined]. *)
Inductive Params :=
| NoParams
| NullParams
| ParamsObject (entries : list (string * option string)).

(** A response: its status code and its Content-Length header. *)
Record Response := {
  statusCode : Z;
  resContentLength : option string
}.

(** The label tuple of a histogram observation. *)
Record Labels := {
  l_method : string;
  l_route : string;
  l_code : Z
}.

(** [req.metrics.timer]: the closure [startTimer] returns.  It remembers the
    histogram it was started on and the start labels. *)
Record Timer := {
  timer_histogram : string;
  timer_method : string
}.

(** [req.metrics] *)
Record RequestMetrics := {
  timer : Timer;
  contentLength : JsNumber.number
}.

Record Request := {
  baseUrl : option string;
  swagger : option Swagger;
  route : option Route;
  url : option string;
  params : Params;
  res : option Response;          (* [req.res], set by Express *)
  method : string;
  reqContentLength : option string; (* [req.get('content-length')] *)
  metrics : option RequestMetrics
}.

(** ** The route classifier *)

(** The label chosen from the routing metadata: [let route = req.baseUrl]
    and the chain of [if]s that follows it. *)
Definition select_route (req : Request) : option string :=
  let label := baseUrl req in
  match swagger req with
  | Some sw => apiPath sw
  | None =>
      match route req with
      | Some rt =>
          if truthy label then
            if negb (String.eqb (path rt) "/")
            then Some (ToString label +:+ path rt)
            else label
          else if truthy (url req) then Some (path rt)
          else label
      | None =>
          if truthy (url req) && negb (truthy label) then url req
          else label
      end
  end.

(** One turn of the [forEach] body:
    [route = route.replace(req.params[paramName], ':' + paramName)]. *)
Definition replace_param (label : option string) (entry : string * option string)
  : result (option string) :=
  match label with
  | None => Throw TypeError
  | Some r => Ok (Some (JsString.replace r (ToString entry.2) (":" +:+ entry.1)))
  end.

Fixpoint replace_params (entries : list (string * option string))
  (label : option string) : result (option string) :=
  match entries with
  | [] => Ok label
  | entry :: rest =>
      label' ← replace_param label entry;
      replace_params rest label'
  end.

(** [if (typeof req.params === 'object') { Object.keys(req.params).forEach(...) }] *)
Definition substitute_params (p : Params) (label : option string)
  : result (option string) :=
  match p with
  | NoParams => Ok label
  | NullParams => Throw TypeError
  | ParamsObject entries => replace_params entries label
  end.

(** The condition of the cardinality guard:
    [!req.route && res && res.statusCode === 404], with [res = req.res]. *)
Definition unrouted_404 (req : Request) : bool :=
  match route req, res req with
  | None, Some r => Z.eqb (statusCode r) 404
  | _, _ => false
  end.

Definition _getRoute (req : Request) : result (option string) :=
  let label := select_route req in
  label ← substitute_params (params req) label;
  if unrouted_404 req then Ok None else Ok label.

(** ** The registry and the module's variables *)

(** The value of a label of a gauge sample. *)
Inductive LabelValue :=
| Text (s : string)
| NumberOf (text : string)  (* [Number(text)], not evaluated *)
| Code (z : Z)
| Undefined.

#[global] Instance LabelValue_eq_dec : EqDecision LabelValue.
Proof. solve_decision. Defined.

(** What one [observe] call, one stopped timer or one [set] records. *)
Inductive Value :=
| Size (bytes : JsNumber.number)
| ElapsedSeconds
| Constant (z : Z).

(** A metric object held by the prom-client registry: a gauge with its
    samples, each under its labels, or a histogram. *)
Inductive Metric :=
| Gauge (help : string) (labelNames : list string)
    (samples : list (list (string * LabelValue) * Value))
| Histogram (help : string) (labelNames : list string) (buckets : list Q).

Record Observation := {
  o_histogram : string;
  o_labels : Labels;
  o_value : Value
}.

(** The module-level object [metricNames]. *)
Record MetricNames := {
  http_request_duration_seconds : string;
  app_version : string;
  http_request_size_bytes : string;
  http_response_size_bytes : string;
  defaultMetricsPrefix : string
}.

(** The handle [collectDefaultMetrics] returns. *)
Record Interval := {
  timeout : option Z;
  prefix : string
}.

(** The variables of the module ([let metricsInterval, metricsRoute, ...] and
    [metricNames]) together with the process-wide registry and the
    observations its histograms have recorded, oldest first.  A histogram
    variable holds the registered name of the object it refers to. *)
Record State := {
  metricNames : MetricNames;
  metricsInterval : option Interval;
  metricsRoute : option string;
  responseTimeHistogram : option string;
  requestSizeHistogram : option string;
  responseSizeHistogram : option string;
  onExitEvent : bool;
  registry : gmap string Metric;
  observed : list Observation
}.

(** The module as it is loaded, before the factory has run. *)
Definition initial_state : State := {|
  metricNames := {|
    http_request_duration_seconds := "http_request_duration_seconds";
    app_version := "app_version";
    http_request_size_bytes := "http_request_size_bytes";
    http_response_size_bytes := "http_response_size_bytes";
    defaultMetricsPrefix := ""
  |};
  metricsInterval := None;
  metricsRoute := None;
  responseTimeHistogram := None;
  requestSizeHistogram := None;
  responseSizeHistogram := None;
  onExitEvent := false;
  registry := ∅;
  observed := []
|}.

Definition set_metricNames (n : MetricNames) (st : State) : State :=
  {| metricNames := n; metricsInterval := metricsInterval st;
     metricsRoute := metricsRoute st;
     responseTimeHistogram := responseTimeHistogram st;
     requestSizeHistogram := requestSizeHistogram st;
     responseSizeHistogram := responseSizeHistogram st;
     onExitEvent := onExitEvent st; registry := registry st;
     observed := observed st |}.

Definition set_metricsInterval (i : option Interval) (st : State) : State :=
  {| metricNames := metricNames st; metricsInterval := i;
     metricsRoute := metricsRoute st;
     responseTimeHistogram := responseTimeHistogram st;
     requestSizeHistogram := requestSizeHistogram st;
     responseSizeHistogram := responseSizeHistogram st;
     onExitEvent := onExitEvent st; registry := registry st;
     observed := observed st |}.

Definition set_metricsRoute (r : option string) (st : State) : State :=
  {| metricNames := metricNames st; metricsInterval := metricsInterval st;
     metricsRoute := r;
     responseTimeHistogram := responseTimeHistogram st;
     requestSizeHistogram := requestSizeHistogram st;
     responseSizeHistogram := responseSizeHistogram st;
     onExitEvent := onExitEvent st; registry := registry st;
     observed := observed st |}.

Definition set_responseTimeHistogram (h : option string) (st : State) : State :=
  {| metricNames := metricNames st; metricsInterval := metricsInterval st;
     metricsRoute := metricsRoute st;
     responseTimeHistogram := h;
     requestSizeHistogram := requestSizeHistogram st;
     responseSizeHistogram := responseSizeHistogram st;
     onExitEvent := onExitEvent st; registry := registry st;
     observed := observed st |}.

Definition set_requestSizeHistogram (h : option string) (st : State) : State :=
  {| metricNames := metricNames st; metricsInterval := metricsInterval st;
     metricsRoute := metricsRoute st;
     responseTimeHistogram := responseTimeHistogram st;
     requestSizeHistogram := h;
     responseSizeHistogram := responseSizeHistogram st;
     onExitEvent := onExitEvent st; registry := registry st;
     observed := observed st |}.

Definition set_responseSizeHistogram (h : option string) (st : State) : State :=
  {| metricNames := metricNames st; metricsInterval := metricsInterval st;
     metricsRoute := metricsRoute st;
     responseTimeHistogram := responseTimeHistogram st;
     requestSizeHistogram := requestSizeHistogram st;
     responseSizeHistogram := h;
     onExitEvent := onExitEvent st; registry := registry st;
     observed := observed st |}.

Definition set_onExitEvent (b : bool) (st : State) : State :=
  {| metricNames := metricNames st; metricsInterval := metricsInterval st;
     metricsRoute := metricsRoute st;
     responseTimeHistogram := responseTimeHistogram st;
     requestSizeHistogram := requestSizeHistogram st;
     responseSizeHistogram := responseSizeHistogram st;
     onExitEvent := b; registry := registry st;
     observed := observed st |}.

Definition set_registry (r : gmap string Metric) (st : State) : State :=
  {| metricNames := metricNames st; metricsInterval := metricsInterval st;
     metricsRoute := metricsRoute st;
     responseTimeHistogram := responseTimeHistogram st;
     requestSizeHistogram := requestSizeHistogram st;
     responseSizeHistogram := responseSizeHistogram st;
     onExitEvent := onExitEvent st; registry := r;
     observed := observed st |}.

Definition set_observed (o : list Observation) (st : State) : State :=
  {| metricNames := metricNames st; metricsInterval := metricsInterval st;
     metricsRoute := metricsRoute st;
     responseTimeHistogram := responseTimeHistogram st;
     requestSizeHistogram := requestSizeHistogram st;
     responseSizeHistogram := responseSizeHistogram st;
     onExitEvent := onExitEvent st; registry := registry st;
     observed := o |}.

(** ** Computations over the module state that may throw *)

Definition M (A : Type) : Type := State -> result A * State.

Definition M_ret {A} (a : A) : M A := fun st => (Ok a, st).

Definition M_bind {A B} (m : M A) (k : A -> M B) : M B :=
  fun st =>
    match m st with
    | (Ok a, st') => k a st'
    | (Throw e, st') => (Throw e, st')
    end.

#[global] Instance M_mret : MRet M := @M_ret.
#[global] Instance M_mbind : MBind M := fun A B k m => M_bind m k.

Definition get {A} (f : State -> A) : M A := fun st => (Ok (f st), st).
Definition modify (f : State -> State) : M unit := fun st => (Ok tt, f st).
Definition throw {A} (e : Error) : M A := fun st => (Throw e, st).
Definition lift {A} (r : result A) : M A := fun st => (r, st).

Definition skip : M unit := M_ret tt.

(** Reading a variable that must hold an object: a member access on
    [undefined] throws. *)
Definition deref {A} (v : option A) : M A :=
  match v with
  | Some a => mret a
  | None => throw TypeError
  end.

(** ** prom-client, as the middleware uses it *)

(** The library is not part of the repository.  It is modelled by its
    contract: a metric is registered under its name and a second registration
    of a name throws; an observation is appended to what the histograms have
    recorded, after the checks of the library: the object must be a
    histogram, it must have been declared with the labels, and the value
    must be finite.  A variable of the module holds the name of its metric;
    a name that is not registered stands for no object.  The constructors
    of the library refuse a name that [validateMetricName] refuses; the model
    does not, and is used with names that pass.  [collectDefaultMetrics] is
    that of prom-client 11.0.0, which leaves the four metrics of the module
    alone and returns; the metrics it registers itself are not in the
    model. *)

Module Prometheus.

(** [register.contentType] *)
Definition contentType : string :=
  "text/plain; version=0.0.4; charset=utf-8".

(** [register.getSingleMetric(name)]: the name of the registered object, or
    [undefined]. *)
Definition getSingleMetric (name : string) : M (option string) :=
  get (fun st => match registry st !! name with
                 | Some _ => Some name
                 | None => None
                 end).

(** validateMetricName: the name matches [/^[a-zA-Z_:][a-zA-Z0-9_:]*$/]. *)
Definition name_start (c : ascii) : bool :=
  let n := nat_of_ascii c in
  (Nat.leb 65 n && Nat.leb n 90) || (Nat.leb 97 n && Nat.leb n 122)
  || Ascii.eqb c "_" || Ascii.eqb c ":".

Fixpoint name_rest (s : string) : bool :=
  match s with
  | EmptyString => true
  | String c t => (name_start c || is_decimal_digit c) && name_rest t
  end.

Definition validateMetricName (name : string) : bool :=
  match name with
  | EmptyString => false
  | String c t => name_start c && name_rest t
  end.

(** [new Gauge(...)] and [new Histogram(...)] register the new object and
    throw when the name is taken. *)
Definition new_metric (name : string) (m : Metric) : M string :=
  fun st =>
    match registry st !! name with
    | Some _ => (Throw RegistrationError, st)
    | None => (Ok name, set_registry (<[name := m]> (registry st)) st)
    end.

(** The labels of every observation of the module. *)
Definition observation_labels : list string := ["method"; "route"; "code"].

(** validateLabel: the metric was declared with every label used. *)
Definition accepts_labels (labelNames used : list string) : bool :=
  forallb (fun l => bool_decide (l ∈ labelNames)) used.

(** The sample under [labels] is set to [value]; a sample under other labels
    stays. *)
Fixpoint upsert (labels : list (string * LabelValue)) (value : Value)
  (samples : list (list (string * LabelValue) * Value))
  : list (list (string * LabelValue) * Value) :=
  match samples with
  | [] => [(labels, value)]
  | (l, v) :: rest =>
      if bool_decide (l = labels) then (labels, value) :: rest
      else (l, v) :: upsert labels value rest
  end.

(** [gauge.labels(...args).set(value)]: the arguments are the values of the
    declared labels, in their order. *)
Definition with_sample (args : list LabelValue) (value : Value)
  (m : Metric) : Metric :=
  match m with
  | Gauge h ln samples => Gauge h ln (upsert (zip ln args) value samples)
  | Histogram _ _ _ => m
  end.

Definition set_sample (name : string) (args : list LabelValue)
  (value : Value) : M unit :=
  modify (fun st =>
    set_registry (alter (with_sample args value) name (registry st)) st).

(** [collectDefaultMetrics({ timeout, prefix })] *)
Definition collectDefaultMetrics (t : option Z) (p : string) : M Interval :=
  mret {| timeout := t; prefix := p |}.

(** A value that passes the number check of [observe] and [set]. *)
Definition finite_value (v : Value) : bool :=
  match v with
  | Size n => JsNumber.is_finite n
  | ElapsedSeconds | Constant _ => true
  end.

(** [histogram.observe(labels, value)] on the object that [histogram] names.
    A gauge has no [observe]. *)
Definition observe (histogram : string) (labels : Labels) (v : Value)
  : M unit :=
  fun st =>
    match registry st !! histogram with
    | Some (Histogram _ labelNames _) =>
        if negb (accepts_labels labelNames observation_labels)
        then (Throw InvalidLabel, st)
        else if negb (finite_value v) then (Throw TypeError, st)
        else
          (Ok tt,
           set_observed
             (observed st ++ [{| o_histogram := histogram; o_labels := labels;
                                 o_value := v |}]) st)
    | Some (Gauge _ _ _) | None => (Throw TypeError, st)
    end.

(** [histogram.startTimer(startLabels)]; a gauge has [startTimer] too. *)
Definition startTimer (histogram : string) (method : string) : Timer :=
  {| timer_histogram := histogram; timer_method := method |}.

(** Calling the timer with the end labels, which are merged onto the start
    labels: a histogram observes the elapsed seconds, a gauge is set to
    them. *)
Definition stop_timer (t : Timer) (route : string) (code : Z) : M unit :=
  fun st =>
    match registry st !! timer_histogram t with
    | Some (Gauge h labelNames samples) =>
        if negb (accepts_labels labelNames observation_labels)
        then (Throw InvalidLabel, st)
        else
          (Ok tt,
           set_registry
             (<[timer_histogram t :=
                  Gauge h labelNames
                    (upsert [("method", Text (timer_method t));
                             ("route", Text route); ("code", Code code)]
                       ElapsedSeconds samples)]> (registry st)) st)
    | _ =>
        observe (timer_histogram t)
          {| l_method := timer_method t; l_route := route; l_code := code |}
          ElapsedSeconds st
    end.

(** One element of the array [register.getMetricsAsJSON()] returns. *)
Record MetricRecord := {
  name : string;
  definition : Metric;
  values : list Observation
}.

Definition snapshot (st : State) : list MetricRecord :=
  (fun '(n, m) =>
     {| name := n; definition := m;
        values := filter (fun o => o_histogram o = n) (observed st) |})
    <$> map_to_list (registry st).

Definition getMetricsAsJSON : M (list MetricRecord) := get snapshot.

(** [register.metrics()]: the text exposition of the same records. *)
Inductive Exposition := TextOf (records : list MetricRecord).

Definition metrics : M Exposition :=
  records ← getMetricsAsJSON; mret (TextOf records).

End Prometheus.

(** ** The factory: [module.exports = (options = {}) => ...] *)

Record Options := {
  metricsPath : option string;
  defaultMetricsInterval : option Z;
  durationBuckets : option (list Q);
  requestSizeBuckets : option (list Q);
  responseSizeBuckets : option (list Q);
  useUniqueHistogramName : option bool
}.

(** [options = {}] *)
Definition no_options : Options := {|
  metricsPath := None; defaultMetricsInterval := None;
  durationBuckets := None; requestSizeBuckets := None;
  responseSizeBuckets := None; useUniqueHistogramName := None
|}.

(** The [name] and [version] that pkginfo reads from the package of the
    requiring module. *)
Record Package := {
  pkg_name : string;
  pkg_version : string
}.

(** [name.replace(/-/g, '_')] *)
Fixpoint replace_hyphens (s : string) : string :=
  match s with
  | EmptyString => EmptyString
  | String c t =>
      String (if Ascii.eqb c "-" then "_"%char else c) (replace_hyphens t)
  end.

(** [s.split(sep)] for a separator of one character. *)
Fixpoint split_on (sep : ascii) (s : string) : list string :=
  match s with
  | EmptyString => [EmptyString]
  | String c t =>
      if Ascii.eqb c sep then EmptyString :: split_on sep t
      else match split_on sep t with
           | h :: r => String c h :: r
           | [] => [String c EmptyString]
           end
  end.

Definition default_durationBuckets : list Q :=
  [1#1000; 5#1000; 15#1000; 5#100; 1#10; 2#10; 3#10; 4#10; 5#10]%Q.

Definition default_sizeBuckets : list Q :=
  [5#1; 10#1; 25#1; 50#1; 100#1; 250#1; 500#1; 1000#1; 2500#1; 5000#1;
   10000#1]%Q.

Definition histogram_labelNames : list string := ["method"; "route"; "code"].

(** The four assignments under [if (useUniqueHistogramName === true)], and
    the fifth to the prefix of the default metrics. *)
Definition prefix_names (projectName : string) (n : MetricNames) : MetricNames :=
  {| http_request_duration_seconds :=
       projectName +:+ "_" +:+ http_request_duration_seconds n;
     app_version := projectName +:+ "_" +:+ app_version n;
     http_request_size_bytes :=
       projectName +:+ "_" +:+ http_request_size_bytes n;
     http_response_size_bytes :=
       projectName +:+ "_" +:+ http_response_size_bytes n;
     defaultMetricsPrefix := projectName +:+ "_" |}.

(** [register.getSingleMetric(name) || new Histogram({ name, ... })] *)
Definition get_or_new (name : string) (m : Metric) : M string :=
  existing ← Prometheus.getSingleMetric name;
  match existing with
  | Some h => mret h
  | None => Prometheus.new_metric name m
  end.

(** The four definitions the factory passes to [new Gauge] and
    [new Histogram]. *)
Definition version_gauge : Metric :=
  Gauge "The service version by package.json"
    ["version"; "major"; "minor"; "patch"] [].

Definition duration_histogram (options : Options) : Metric :=
  Histogram "Duration of HTTP requests in seconds" histogram_labelNames
    (default default_durationBuckets (durationBuckets options)).

Definition request_size_histogram (options : Options) : Metric :=
  Histogram "Size of HTTP requests in bytes" histogram_labelNames
    (default default_sizeBuckets (requestSizeBuckets options)).

Definition response_size_histogram (options : Options) : Metric :=
  Histogram "Size of HTTP response in bytes" histogram_labelNames
    (default default_sizeBuckets (responseSizeBuckets options)).

(** The arguments of [version.labels(...)]: the version, and of its first
    three segments what [Number] makes of the text between the dots, or
    [undefined] where the version has no such segment. *)
Definition version_labels (appVersion : string) : list LabelValue :=
  let versionSegments := split_on "." appVersion in
  let segment (i : nat) :=
    match versionSegments !! i with
    | Some text => NumberOf text
    | None => Undefined
    end in
  [Text appVersion; segment 0%nat; segment 1%nat; segment 2%nat].

(** The factory. *)
Definition module_exports (parent : Package) (options : Options) : M unit :=
  let appVersion := pkg_version parent in
  let projectName := replace_hyphens (pkg_name parent) in
  modify (set_metricsRoute
            (Some (if truthy (metricsPath options)
                   then ToString (metricsPath options) else "/metrics")));;
  (if bool_decide (useUniqueHistogramName options = Some true)
   then modify (fun st =>
                  set_metricNames (prefix_names projectName (metricNames st)) st)
   else skip);;
  names ← get metricNames;
  interval ← Prometheus.collectDefaultMetrics
               (defaultMetricsInterval options) (defaultMetricsPrefix names);
  modify (set_metricsInterval (Some interval));;
  existing ← Prometheus.getSingleMetric (app_version names);
  (match existing with
   | Some _ => skip
   | None =>
       version ← Prometheus.new_metric (app_version names) version_gauge;
       Prometheus.set_sample version (version_labels appVersion) (Constant 1)
   end);;
  h ← get_or_new (http_request_duration_seconds names)
        (duration_histogram options);
  modify (set_responseTimeHistogram (Some h));;
  h ← get_or_new (http_request_size_bytes names)
        (request_size_histogram options);
  modify (set_requestSizeHistogram (Some h));;
  h ← get_or_new (http_response_size_bytes names)
        (response_size_histogram options);
  modify (set_responseSizeHistogram (Some h));;
  exitEvent ← get onExitEvent;
  if (exitEvent : bool) then skip else modify (set_onExitEvent true).

(** *** The factory in closed form *)

(** The registry after [getSingleMetric(name) || new ...]. *)
Definition ensure (name : string) (m : Metric) (reg : gmap string Metric)
  : gmap string Metric :=
  match reg !! name with
  | Some _ => reg
  | None => <[name := m]> reg
  end.

(** The registry after the block that creates the version gauge. *)
Definition ensure_version (name appVersion : string)
  (reg : gmap string Metric) : gmap string Metric :=
  match reg !! name with
  | Some _ => reg
  | None =>
      alter (Prometheus.with_sample (version_labels appVersion) (Constant 1))
        name
        (<[name := version_gauge]> reg)
  end.

(** The names the factory works with: prefixed once more on every call that
    asks for unique names. *)
Definition names_after (parent : Package) (options : Options) (st : State)
  : MetricNames :=
  if bool_decide (useUniqueHistogramName options = Some true)
  then prefix_names (replace_hyphens (pkg_name parent)) (metricNames st)
  else metricNames st.

Definition after_factory (parent : Package) (options : Options) (st : State)
  : State :=
  let names := names_after parent options st in
  {| metricNames := names;
     metricsInterval :=
       Some {| timeout := defaultMetricsInterval options;
               prefix := defaultMetricsPrefix names |};
     metricsRoute :=
       Some (if truthy (metricsPath options)
             then ToString (metricsPath options) else "/metrics");
     responseTimeHistogram := Some (http_request_duration_seconds names);
     requestSizeHistogram := Some (http_request_size_bytes names);
     responseSizeHistogram := Some (http_response_size_bytes names);
     onExitEvent := true;
     registry :=
       ensure (http_response_size_bytes names) (response_size_histogram options)
         (ensure (http_request_size_bytes names)
            (request_size_histogram options)
            (ensure (http_request_duration_seconds names)
               (duration_histogram options)
               (ensure_version (app_version names) (pkg_version parent)
                  (registry st))));
     observed := observed st |}.

(** The four names under which the factory has registered its metrics. *)
Definition declared_names (st : State) : list string :=
  [app_version (metricNames st);
   http_request_duration_seconds (metricNames st);
   http_request_size_bytes (metricNames st);
   http_response_size_bytes (metricNames st)].

(** ** The request interceptor and the completion handler *)

(** What the middleware has done with a request when it returns. *)
Inductive Reply :=
| EndText (content_type : string) (body : Prometheus.Exposition)
| SendJson (body : list Prometheus.MetricRecord).

Inductive Handled :=
| Replied (r : Reply)
    (* the response is sent; [next] is not called, no listener is added *)
| PassedOn (req' : Request).
    (* [req.metrics] is set, the finish listener is added, [next()] is called *)

Definition set_metrics (m : RequestMetrics) (req : Request) : Request :=
  {| baseUrl := baseUrl req; swagger := swagger req; route := route req;
     url := url req; params := params req; res := res req;
     method := method req; reqContentLength := reqContentLength req;
     metrics := Some m |}.

Definition middleware (req : Request) : M Handled :=
  metricsRoute ← get metricsRoute;
  if bool_decide (url req = metricsRoute) then
    body ← Prometheus.metrics;
    mret (Replied (EndText Prometheus.contentType body))
  else if bool_decide (url req = Some (ToString metricsRoute +:+ ".json")) then
    body ← Prometheus.getMetricsAsJSON;
    mret (Replied (SendJson body))
  else
    histogram ← get responseTimeHistogram;
    histogram ← deref histogram;
    mret (PassedOn
            (set_metrics
               {| timer := Prometheus.startTimer histogram (method req);
                  contentLength :=
                    JsNumber.parseInt_or_0 (reqContentLength req) |}
               req)).

Definition _handleResponse (req : Request) (res : Response) : M unit :=
  let responseLength := JsNumber.parseInt_or_0 (resContentLength res) in
  route ← lift (_getRoute req);
  if truthy route then
    let route := ToString route in
    histogram ← get requestSizeHistogram;
    histogram ← deref histogram;
    metrics ← deref (metrics req);
    Prometheus.observe histogram
      {| l_method := method req; l_route := route; l_code := statusCode res |}
      (Size (contentLength metrics));;
    Prometheus.stop_timer (timer metrics) route (statusCode res);;
    histogram ← get responseSizeHistogram;
    histogram ← deref histogram;
    Prometheus.observe histogram
      {| l_method := method req; l_route := route; l_code := statusCode res |}
      (Size responseLength)
  else skip.

(** The listener the middleware adds with [res.once('finish', ...)]. *)
Definition on_finish (req : Request) (res : Response) : M unit :=
  _handleResponse req res.

(** One request from its arrival to the finish event of its response: the
    middleware runs, the rest of the service answers with [res], and the
    listener fires.  The fields of the request are the same at both ends;
    [request_lifecycle] below is the general case. *)
Definition lifecycle (req : Request) (res : Response) : M unit :=
  handled ← middleware req;
  match handled with
  | Replied _ => skip
  | PassedOn req' => on_finish req' res
  end.

(** The request object at the finish event.  [fin] holds the fields of the
    request as they are then, after the rest of the service has worked on
    the object; [req.metrics] is what the middleware attached on arrival. *)
Definition at_finish (arrived fin : Request) : Request :=
  {| baseUrl := baseUrl fin; swagger := swagger fin; route := route fin;
     url := url fin; params := params fin; res := res fin;
     method := method fin; reqContentLength := reqContentLength fin;
     metrics := metrics arrived |}.

(** One request from its arrival as [req] to the finish event of its
    response, when its fields are those of [fin]. *)
Definition request_lifecycle (req fin : Request) (res : Response) : M unit :=
  handled ← middleware req;
  match handled with
  | Replied _ => skip
  | PassedOn req' => on_finish (at_finish req' fin) res
  end.

(** The metric that [h] names is a histogram declared with the labels of the
    module, as the factory creates it. *)
Definition takes_observations (st : State) (h : string) : bool :=
  match registry st !! h with
  | Some (Histogram _ labelNames _) =>
      Prometheus.accepts_labels labelNames Prometheus.observation_labels
  | Some (Gauge _ _ _) | None => false
  end.

(** ** The substitution as the specification words it *)

(** Every literal occurrence of every parameter value is replaced by the
    placeholder [:name]. *)
Definition replace_every (entries : list (string * option string))
  (pattern : string) : string :=
  foldl (fun label entry =>
           JsString.replace_all label (ToString entry.2) (":" +:+ entry.1))
        pattern entries.

(** [v] occurs in [s], with [before] in front of it and [after] behind. *)
Definition occurs_at (v s before after : string) : Prop :=
  s = before +:+ v +:+ after.

Definition occurs (v s : string) : Prop :=
  exists before after, occurs_at v s before after.

(** The occurrence of [v] at [before] is the leftmost one. *)
Definition first_occurrence (v s before after : string) : Prop :=
  occurs_at v s before after /\
  forall before' after',
    occurs_at v s before' after' ->
    (String.length before <= String.length before')%nat.

(** [label'] is [label] after the parameters were taken in order and, for
    each of them, the leftmost occurrence of its value, when there is one,
    was replaced by [:name]. *)
Inductive first_occurrences_replaced
  : list (string * option string) -> string -> string -> Prop :=
| for_nil label :
    first_occurrences_replaced [] label label
| for_absent name value rest label label' :
    ~ occurs (ToString value) label ->
    first_occurrences_replaced rest label label' ->
    first_occurrences_replaced ((name, value) :: rest) label label'
| for_present name value rest label before after label' :
    first_occurrence (ToString value) label before after ->
    first_occurrences_replaced rest (before +:+ (":" +:+ name) +:+ after) label' ->
    first_occurrences_replaced ((name, value) :: rest) label label'.

(** No parameter can change [label]: the request has no parameter object, or
    no value of it occurs in [label]. *)
Definition params_inert (p : Params) (label : string) : Prop :=
  match p with
  | NoParams => True
  | NullParams => False
  | ParamsObject entries =>
      Forall (fun entry => ~ occurs (ToString entry.2) label) entries
  end.

(** The parameter substitution is defined: [req.params] is not [null], and
    when it has an entry the selected label is a string. *)
Definition substitution_defined (req : Request) : bool :=
  match params req with
  | NoParams => true
  | NullParams => false
  | ParamsObject [] => true
  | ParamsObject (_ :: _) => bool_decide (is_Some (select_route req))
  end.

(** The three observations of a request that has a label: request size,
    duration, response size, under one label tuple. *)
Definition recorded (hq hd hs : string) (labels : Labels)
  (requestLength responseLength : JsNumber.number) : list Observation :=
  [ {| o_histogram := hq; o_labels := labels; o_value := Size requestLength |};
    {| o_histogram := hd; o_labels := labels; o_value := ElapsedSeconds |};
    {| o_histogram := hs; o_labels := labels;
       o_value := Size responseLength |} ].

Arguments recorded hq hd hs labels requestLength%_Z responseLength%_Z.

(** ** Sample requests *)

Definition response (code : Z) (length : option string) : Response :=
  {| statusCode := code; resContentLength := length |}.

Definition request (base : option string) (sw : option Swagger)
  (rt : option Route) (u : option string) (p : Params) (r : option Response)
  : Request :=
  {| baseUrl := base; swagger := sw; route := rt; url := u; params := p;
     res := r; method := "GET"; reqContentLength := Some "120";
     metrics := None |}.

(** Express, application at the root: [GET /users/42] on [/users/:id]. *)
Definition get_users_42 : Request :=
  request (Some "") None (Some {| path := "/users/:id" |}) (Some "/users/42")
    (ParamsObject [("id", Some "42")]) (Some (response 200 (Some "340"))).

(** [GET /list/list/list] on [/list/list/:page]. *)
Definition get_list_list : Request :=
  request (Some "") None (Some {| path := "/list/list/:page" |})
    (Some "/list/list/list") (ParamsObject [("page", Some "list")])
    (Some (response 200 None)).

(** Express, router mounted at [/api]: [GET /api/users/a] on [/users/:id]. *)
Definition get_api_users_a : Request :=
  request (Some "/api") None (Some {| path := "/users/:id" |})
    (Some "/users/a") (ParamsObject [("id", Some "a")])
    (Some (response 200 None)).

(** Express, application at the root, answered with 401 before any route
    matched. *)
Definition get_private : Request :=
  request (Some "") None None (Some "/private") (ParamsObject [])
    (Some (response 401 None)).

(** Express, router mounted at [/api], answered before any route matched. *)
Definition get_api_unrouted : Request :=
  request (Some "/api") None None (Some "/users/5") (ParamsObject [])
    (Some (response 401 None)).

(** A request object without base path and URL that carries a parameter. *)
Definition get_without_source : Request :=
  request None None None None (ParamsObject [("id", Some "42")]) None.

(** A host framework that does not set [req.res]: an unmatched URL. *)
Definition get_missing_without_res : Request :=
  request None None None (Some "/missing") NoParams None.

(** An unmatched URL whose [req.params] is [null]. *)
Definition get_missing_null_params : Request :=
  request (Some "") None None (Some "/missing") NullParams
    (Some (response 404 None)).

(** Express with swagger routing: the handler of [/pets/{id}] answers 404. *)
Definition get_pet_not_found : Request :=
  request (Some "") (Some {| apiPath := Some "/pets/{id}" |}) None
    (Some "/pets/5") (ParamsObject []) (Some (response 404 None)).

(** Swagger routing: [GET /pets/5] on [/pets/{id}], answered with 200. *)
Definition get_pet : Request :=
  request (Some "") (Some {| apiPath := Some "/pets/{id}" |}) None
    (Some "/pets/5") (ParamsObject []) (Some (response 200 None)).

(** Swagger routing under a version prefix: [GET /v1/pets/1]. *)
Definition get_pet_v1 : Request :=
  request (Some "") (Some {| apiPath := Some "/v1/pets/{id}" |}) None
    (Some "/v1/pets/1") (ParamsObject [("id", Some "1")])
    (Some (response 200 None)).

(** Express, no route matched: [GET /missing], answered with 404. *)
Definition get_missing : Request :=
  request (Some "") None None (Some "/missing") (ParamsObject [])
    (Some (response 404 None)).

(** A swagger descriptor whose path is the empty string. *)
Definition get_swagger_empty_path : Request :=
  request (Some "") (Some {| apiPath := Some "" |}) None (Some "/")
    (ParamsObject []) (Some (response 200 None)).

(** [GET /orders/abc123] on [/orders/:orderId]. *)
Definition get_order : Request :=
  request (Some "") None (Some {| path := "/orders/:orderId" |})
    (Some "/orders/abc123") (ParamsObject [("orderId", Some "abc123")])
    (Some (response 200 (Some "340"))).

(** The same request with what the middleware attaches on its arrival. *)
Definition get_order_arrived : Request :=
  set_metrics
    {| timer := Prometheus.startTimer "http_request_duration_seconds" "GET";
       contentLength := 120%Z |}
    get_order.

(** A request that arrives as [POST] and, after a method override in the
    service, is a [PUT] when its response finishes. *)
Definition post_item : Request :=
  {| baseUrl := Some ""; swagger := None;
     route := None; url := Some "/items/7"; params := NoParams;
     res := None; method := "POST"; reqContentLength := Some "120";
     metrics := None |}.

Definition put_item : Request :=
  {| baseUrl := Some ""; swagger := None;
     route := Some {| path := "/items/:id" |}; url := Some "/items/7";
     params := ParamsObject [("id", Some "7")];
     res := Some (response 200 None); method := "PUT";
     reqContentLength := Some "120"; metrics := None |}.

Definition get_url (u : string) : Request :=
  request (Some "") None None (Some u) (ParamsObject []) None.

Definition sample_package : Package :=
  {| pkg_name := "my-svc"; pkg_version := "2.1.2" |}.

Definition unique_names : Options := {|
  metricsPath := None; defaultMetricsInterval := None;
  durationBuckets := None; requestSizeBuckets := None;
  responseSizeBuckets := None; useUniqueHistogramName := Some true
|}.

(** The module after one call and after two calls of the factory that ask
    for unique names. *)
Definition started_unique : State :=
  (module_exports sample_package unique_names initial_state).2.

Definition restarted_unique : result unit * State :=
  module_exports sample_package unique_names started_unique.

(** The module after a call with default options and then a call that asks
    for unique names. *)
Definition started_then_unique : State :=
  (module_exports sample_package unique_names
     (module_exports sample_package no_options initial_state).2).2.

(** A numeral of 310 digits: a one and 309 zeros. *)
Fixpoint zeros (n : nat) : string :=
  match n with
  | O => EmptyString
  | S n' => String "0" (zeros n')
  end.

Definition oversized : string := String "1" (zeros 309).

(** The options [{ metricsPath: '/status' }], and the module after a call
    with them. *)
Definition status_path : Options := {|
  metricsPath := Some "/status"; defaultMetricsInterval := None;
  durationBuckets := None; requestSizeBuckets := None;
  responseSizeBuckets := None; useUniqueHistogramName := None
|}.

Definition started_at_status : State :=
  (module_exports sample_package status_path initial_state).2.

(** The module after one call of the factory with default options. *)
Definition started : State :=
  (module_exports sample_package no_options initial_state).2.

(** * Properties *)

(** ** Strings *)

Section string_facts.

Implicit Types p s t v : string.

Lemma append_empty_r s : s +:+ "" = s.
Proof. induction s as [|c s IH]; simpl; [done | by rewrite IH]. Qed.

Lemma append_assoc s t v : (s +:+ t) +:+ v = s +:+ (t +:+ v).
Proof. induction s as [|c s IH]; simpl; [done | by rewrite IH]. Qed.

Lemma length_append s t :
  String.length (s +:+ t) = (String.length s + String.length t)%nat.
Proof. induction s as [|c s IH]; simpl; [done | by rewrite IH]. Qed.

Lemma append_cancel_l p s t : p +:+ s = p +:+ t -> s = t.
Proof.
  induction p as [|c p IH]; simpl; intros H; [done|].
  injection H as H. by apply IH.
Qed.

(** A string is not the proper extension of itself. *)
Lemma append_fixed p t : p +:+ t = p -> t = "".
Proof.
  intros H. apply (append_cancel_l p). by rewrite append_empty_r.
Qed.

Lemma strip_prefix_append p s : JsString.strip_prefix p (p +:+ s) = Some s.
Proof.
  induction p as [|c p IH]; simpl; [done|].
  by rewrite Ascii.eqb_refl.
Qed.

Lemma strip_prefix_Some p s t :
  JsString.strip_prefix p s = Some t -> s = p +:+ t.
Proof.
  revert s. induction p as [|c p IH]; intros s; simpl.
  - by intros [= ->].
  - destruct s as [|d s]; [done|].
    destruct (Ascii.eqb_spec c d) as [->|]; [|done].
    intros H. by rewrite (IH _ H).
Qed.

Lemma strip_prefix_None p s before :
  JsString.strip_prefix p s = None -> s <> p +:+ before.
Proof. intros H ->. by rewrite strip_prefix_append in H. Qed.

(** [split_first] finds the leftmost occurrence. *)
Lemma split_first_Some v s before after :
  JsString.split_first v s = Some (before, after) ->
  first_occurrence v s before after.
Proof.
  revert before after. induction s as [|c s IH]; intros before after.
  - simpl. destruct (JsString.strip_prefix v "") as [rest|] eqn:E; [|done].
    intros [= <- <-]. apply strip_prefix_Some in E.
    split; [done | simpl; lia].
  - cbn [JsString.split_first].
    destruct (JsString.strip_prefix v (String c s)) as [rest|] eqn:E.
    + intros [= <- <-]. apply strip_prefix_Some in E.
      split; [done | simpl; lia].
    + destruct (JsString.split_first v s) as [[b a]|] eqn:F; [|done].
      intros [= <- <-]. destruct (IH _ _ eq_refl) as [Hocc Hmin].
      split.
      * unfold occurs_at in *. simpl. by rewrite <- Hocc.
      * intros [|d b'] a' Hocc'; unfold occurs_at in Hocc'.
        -- simpl in Hocc'. by apply strip_prefix_None with (before := a') in E.
        -- simpl in Hocc'. injection Hocc' as -> Hocc'.
           specialize (Hmin b' a' Hocc'). simpl. lia.
Qed.

Lemma split_first_None v s :
  JsString.split_first v s = None -> ~ occurs v s.
Proof.
  induction s as [|c s IH].
  - simpl. destruct (JsString.strip_prefix v "") as [rest|] eqn:E; [done|].
    intros _ ([|d b] & a & Hocc); unfold occurs_at in Hocc; simpl in Hocc.
    + by apply strip_prefix_None with (before := a) in E.
    + done.
  - cbn [JsString.split_first].
    destruct (JsString.strip_prefix v (String c s)) as [rest|] eqn:E; [done|].
    destruct (JsString.split_first v s) as [[b a]|] eqn:F; [done|].
    intros _ ([|d b'] & a' & Hocc); unfold occurs_at in Hocc; simpl in Hocc.
    + by apply strip_prefix_None with (before := a') in E.
    + injection Hocc as -> Hocc. apply IH; [done|]. by exists b', a'.
Qed.

Lemma split_first_occurs v s :
  occurs v s -> is_Some (JsString.split_first v s).
Proof.
  intros H. destruct (JsString.split_first v s) eqn:E; [done|].
  by apply split_first_None in E.
Qed.

(** A replacement text without a dollar sign stands for itself. *)
Lemma get_substitution_dollar_free matched before after t :
  JsString.dollar_free t = true ->
  JsString.get_substitution matched before after t = t.
Proof.
  induction t as [|c t IH]; [done|].
  cbn [JsString.dollar_free JsString.get_substitution].
  intros [Hc Ht]%andb_prop. apply negb_true_iff in Hc.
  rewrite Hc. by rewrite IH.
Qed.

Lemma placeholder_dollar_free name :
  JsString.dollar_free name = true ->
  JsString.dollar_free (":" +:+ name) = true.
Proof. done. Qed.

Lemma replace_absent s v r : ~ occurs v s -> JsString.replace s v r = s.
Proof.
  intros H. unfold JsString.replace.
  destruct (JsString.split_first v s) as [[b a]|] eqn:E; [|done].
  destruct H. apply split_first_Some in E as [E _]. by exists b, a.
Qed.

End string_facts.

(** ** The parameter substitution *)

Section substitution_facts.

Implicit Types (entries : list (string * option string)) (label : string).

Lemma replace_param_first name value label :
  JsString.dollar_free name = true ->
  exists label',
    replace_param (Some label) (name, value) = Ok (Some label') /\
    first_occurrences_replaced [(name, value)] label label'.
Proof.
  intros Hname. unfold replace_param, JsString.replace. simpl.
  destruct (JsString.split_first (ToString value) label) as [[b a]|] eqn:E.
  - eexists. split; [done|].
    rewrite get_substitution_dollar_free by done.
    eapply for_present; [by apply split_first_Some | apply for_nil].
  - eexists. split; [done|].
    apply for_absent; [by apply split_first_None | apply for_nil].
Qed.

Lemma first_occurrences_replaced_cons name value rest label mid label' :
  first_occurrences_replaced [(name, value)] label mid ->
  first_occurrences_replaced rest mid label' ->
  first_occurrences_replaced ((name, value) :: rest) label label'.
Proof.
  intros H1 H2. inversion H1 as [| ? ? ? ? ? Hno Hnil | ? ? ? ? ? ? ? Hocc Hnil];
    subst; inversion Hnil; subst.
  - by apply for_absent.
  - by eapply for_present.
Qed.

Lemma replace_params_first entries label :
  Forall (fun entry => JsString.dollar_free entry.1 = true) entries ->
  exists label',
    replace_params entries (Some label) = Ok (Some label') /\
    first_occurrences_replaced entries label label'.
Proof.
  revert label. induction entries as [|[name value] rest IH]; intros label H.
  - exists label. split; [done | apply for_nil].
  - apply Forall_cons in H as [Hname Hrest].
    destruct (replace_param_first name value label Hname) as (mid & E & Hmid).
    destruct (IH mid Hrest) as (label' & E' & Hrest').
    exists label'. split.
    + cbn [replace_params]. by rewrite E.
    + by eapply first_occurrences_replaced_cons.
Qed.

Lemma replace_params_inert entries label :
  Forall (fun entry => ~ occurs (ToString entry.2) label) entries ->
  replace_params entries (Some label) = Ok (Some label).
Proof.
  induction 1 as [|[name value] rest Hno _ IH]; [done|].
  cbn [replace_params replace_param]. by rewrite replace_absent.
Qed.

Lemma substitute_params_inert p label :
  params_inert p label -> substitute_params p (Some label) = Ok (Some label).
Proof.
  destruct p as [| |entries]; simpl; [done | done | apply replace_params_inert].
Qed.

(** On a string the substitution always returns a string. *)
Lemma replace_params_string entries label :
  exists label', replace_params entries (Some label) = Ok (Some label').
Proof.
  revert label. induction entries as [|entry rest IH]; intros label.
  - by exists label.
  - cbn [replace_params replace_param]. apply IH.
Qed.

(** On [undefined] the first turn of the loop throws. *)
Lemma replace_params_undefined entry rest :
  replace_params (entry :: rest) None = Throw TypeError.
Proof. done. Qed.

Lemma substitute_params_defined req :
  (exists v, substitute_params (params req) (select_route req) = Ok v) <->
  substitution_defined req = true.
Proof.
  unfold substitution_defined, substitute_params.
  destruct (params req) as [| |[|entry rest]].
  - split; [done | by eexists].
  - split; [by intros [v ?] | done].
  - split; [done | by eexists].
  - destruct (select_route req) as [label|].
    + split; [intros _; by apply bool_decide_eq_true|].
      intros _. destruct (replace_params_string (entry :: rest) label) as [l E].
      by exists (Some l).
    + split; [by intros [v ?]|].
      intros H%bool_decide_eq_true. by destruct H.
Qed.

Lemma getRoute_defined req :
  (exists v, _getRoute req = Ok v) <-> substitution_defined req = true.
Proof.
  rewrite <- substitute_params_defined. unfold _getRoute.
  destruct (substitute_params (params req) (select_route req)) as [v|e].
  - split; [by exists v|]. intros _. simpl. destruct (unrouted_404 req); by eexists.
  - split; by intros [v ?].
Qed.

(** [req.metrics] plays no part in the classification. *)
Lemma getRoute_set_metrics m req : _getRoute (set_metrics m req) = _getRoute req.
Proof. done. Qed.

End substitution_facts.

(** ** The route classifier *)

Section classifier.

Implicit Types (req : Request) (label pattern : string).

Lemma getRoute_stages req :
  _getRoute req =
  (label ← substitute_params (params req) (select_route req);
   if unrouted_404 req then Ok None else Ok label).
Proof. done. Qed.

Lemma getRoute_inert req label :
  select_route req = Some label ->
  params_inert (params req) label ->
  _getRoute req = Ok (if unrouted_404 req then None else Some label).
Proof.
  intros Hsel Hinert. unfold _getRoute.
  rewrite Hsel, substitute_params_inert by done. simpl.
  by destruct (unrouted_404 req).
Qed.

Lemma routed_not_404 req rt : route req = Some rt -> unrouted_404 req = false.
Proof. unfold unrouted_404. by intros ->. Qed.

Lemma select_route_swagger req sw : swagger req = Some sw -> select_route req = apiPath sw.
Proof. unfold select_route. by intros ->. Qed.

Lemma select_route_base req base rt :
  swagger req = None -> baseUrl req = Some base -> base <> "" ->
  route req = Some rt ->
  select_route req =
  Some (if String.eqb (path rt) "/" then base else base +:+ path rt).
Proof.
  intros Hsw Hbase Hne Hrt. unfold select_route.
  rewrite Hsw, Hrt, Hbase. simpl.
  apply String.eqb_neq in Hne. rewrite Hne. simpl.
  by destruct (String.eqb (path rt) "/").
Qed.

Lemma select_route_pattern req rt :
  swagger req = None -> truthy (baseUrl req) = false ->
  truthy (url req) = true -> route req = Some rt ->
  select_route req = Some (path rt).
Proof.
  intros Hsw Hbase Hurl Hrt. unfold select_route.
  by rewrite Hsw, Hrt, Hbase, Hurl.
Qed.

(** The label is [undefined] exactly when the swagger descriptor has no
    path, or there is no descriptor, no base path and no URL. *)
Lemma select_route_undefined req :
  select_route req = None <->
  (exists sw, swagger req = Some sw /\ apiPath sw = None) \/
  (swagger req = None /\ baseUrl req = None /\ truthy (url req) = false).
Proof.
  unfold select_route. destruct (swagger req) as [sw|].
  - split; [intros H; left; by exists sw|].
    intros [(sw' & [= <-] & H)|(H & _)]; done.
  - split.
    + intros H. right. split; [done|].
      destruct (route req) as [rt|], (baseUrl req) as [base|],
        (url req) as [u|]; simpl in *;
        repeat (match goal with
                | H : context [String.eqb ?a ?b] |- _ =>
                    destruct (String.eqb a b); simpl in H
                | |- context [String.eqb ?a ?b] =>
                    destruct (String.eqb a b); simpl
                end); try done.
    + intros [(sw & H & _)|(_ & Hbase & Hurl)]; [done|].
      rewrite Hbase. simpl. rewrite Hurl. by destruct (route req).
Qed.

Lemma select_route_url req u :
  swagger req = None -> route req = None -> truthy (baseUrl req) = false ->
  url req = Some u -> u <> "" ->
  select_route req = Some u.
Proof.
  intros Hsw Hrt Hbase Hurl Hne. unfold select_route.
  rewrite Hsw, Hrt, Hbase, Hurl. simpl.
  apply String.eqb_neq in Hne. by rewrite Hne.
Qed.

End classifier.

(** ** The completion handler *)

Section handler.

Implicit Types (req : Request) (res : Response) (st : State).

Lemma handleResponse_thrown req res st e :
  _getRoute req = Throw e -> _handleResponse req res st = (Throw e, st).
Proof.
  intros H. unfold _handleResponse, mbind, M_mbind, M_bind, lift.
  by rewrite H.
Qed.

Lemma handleResponse_unlabelled req res st v :
  _getRoute req = Ok v -> truthy v = false ->
  _handleResponse req res st = (Ok tt, st).
Proof.
  intros H Hv. unfold _handleResponse, mbind, M_mbind, M_bind, lift.
  by rewrite H, Hv.
Qed.

Lemma observe_taken st h labels v :
  takes_observations st h = true -> Prometheus.finite_value v = true ->
  Prometheus.observe h labels v st =
  (Ok tt,
   set_observed
     (observed st ++ [{| o_histogram := h; o_labels := labels;
                         o_value := v |}]) st).
Proof.
  unfold takes_observations, Prometheus.observe. intros Hh Hv.
  destruct (registry st !! h) as [[|help labelNames buckets]|]; try done.
  by rewrite Hh, Hv.
Qed.

(** A value that is not finite is refused and nothing is recorded. *)
Lemma observe_not_finite st h labels v :
  takes_observations st h = true -> Prometheus.finite_value v = false ->
  Prometheus.observe h labels v st = (Throw TypeError, st).
Proof.
  unfold takes_observations, Prometheus.observe. intros Hh Hv.
  destruct (registry st !! h) as [[|help labelNames buckets]|]; try done.
  by rewrite Hh, Hv.
Qed.

Lemma stop_timer_taken st t route code :
  takes_observations st (timer_histogram t) = true ->
  Prometheus.stop_timer t route code st =
  (Ok tt,
   set_observed
     (observed st ++
      [{| o_histogram := timer_histogram t;
          o_labels := {| l_method := timer_method t; l_route := route;
                         l_code := code |};
          o_value := ElapsedSeconds |}]) st).
Proof.
  intros Hh. unfold Prometheus.stop_timer.
  rewrite <- (observe_taken st _ _ ElapsedSeconds Hh eq_refl).
  unfold takes_observations in Hh.
  by destruct (registry st !! timer_histogram t) as [[|]|].
Qed.

Lemma takes_observations_set_observed st o h :
  takes_observations (set_observed o st) h = takes_observations st h.
Proof. done. Qed.

Lemma handleResponse_labelled req res st label hq hs m :
  _getRoute req = Ok (Some label) -> label <> "" ->
  requestSizeHistogram st = Some hq ->
  responseSizeHistogram st = Some hs ->
  metrics req = Some m ->
  takes_observations st hq = true ->
  takes_observations st (timer_histogram (timer m)) = true ->
  takes_observations st hs = true ->
  JsNumber.is_finite (contentLength m) = true ->
  JsNumber.is_finite (JsNumber.parseInt_or_0 (resContentLength res)) = true ->
  _handleResponse req res st =
  (Ok tt,
   set_observed
     (observed st ++
      [ {| o_histogram := hq;
           o_labels := {| l_method := method req; l_route := label;
                          l_code := statusCode res |};
           o_value := Size (contentLength m) |};
        {| o_histogram := timer_histogram (timer m);
           o_labels := {| l_method := timer_method (timer m);
                          l_route := label; l_code := statusCode res |};
           o_value := ElapsedSeconds |};
        {| o_histogram := hs;
           o_labels := {| l_method := method req; l_route := label;
                          l_code := statusCode res |};
           o_value :=
             Size (JsNumber.parseInt_or_0 (resContentLength res)) |} ])
     st).
Proof.
  intros H Hne Hq Hs Hm Tq Td Ts Fq Fs.
  unfold _handleResponse, mbind, M_mbind, M_bind, lift.
  rewrite H. simpl. apply String.eqb_neq in Hne. rewrite Hne. simpl.
  unfold get. rewrite Hq, Hm. simpl.
  rewrite (observe_taken st hq _ _ Tq) by done.
  rewrite stop_timer_taken by done. simpl. rewrite Hs. simpl.
  rewrite observe_taken by done.
  unfold set_observed. simpl. by rewrite <- !app_assoc.
Qed.

(** With a response length that is not finite the first two observations
    are made and the third throws. *)
Lemma handleResponse_response_not_finite req res st label hq hs m :
  _getRoute req = Ok (Some label) -> label <> "" ->
  requestSizeHistogram st = Some hq ->
  responseSizeHistogram st = Some hs ->
  metrics req = Some m ->
  takes_observations st hq = true ->
  takes_observations st (timer_histogram (timer m)) = true ->
  takes_observations st hs = true ->
  JsNumber.is_finite (contentLength m) = true ->
  JsNumber.is_finite (JsNumber.parseInt_or_0 (resContentLength res)) = false ->
  _handleResponse req res st =
  (Throw TypeError,
   set_observed
     (observed st ++
      [ {| o_histogram := hq;
           o_labels := {| l_method := method req; l_route := label;
                          l_code := statusCode res |};
           o_value := Size (contentLength m) |};
        {| o_histogram := timer_histogram (timer m);
           o_labels := {| l_method := timer_method (timer m);
                          l_route := label; l_code := statusCode res |};
           o_value := ElapsedSeconds |} ])
     st).
Proof.
  intros H Hne Hq Hs Hm Tq Td Ts Fq Fs.
  unfold _handleResponse, mbind, M_mbind, M_bind, lift.
  rewrite H. simpl. apply String.eqb_neq in Hne. rewrite Hne. simpl.
  unfold get. rewrite Hq, Hm. simpl.
  rewrite (observe_taken st hq _ _ Tq) by done.
  rewrite stop_timer_taken by done. simpl. rewrite Hs. simpl.
  rewrite observe_not_finite by done.
  unfold set_observed. simpl. by rewrite <- !app_assoc.
Qed.

(** With a request length that is not finite the first observation throws
    and nothing is recorded. *)
Lemma handleResponse_request_not_finite req res st label hq m :
  _getRoute req = Ok (Some label) -> label <> "" ->
  requestSizeHistogram st = Some hq ->
  metrics req = Some m ->
  takes_observations st hq = true ->
  JsNumber.is_finite (contentLength m) = false ->
  _handleResponse req res st = (Throw TypeError, st).
Proof.
  intros H Hne Hq Hm Tq Fq.
  unfold _handleResponse, mbind, M_mbind, M_bind, lift.
  rewrite H. simpl. apply String.eqb_neq in Hne. rewrite Hne. simpl.
  unfold get. rewrite Hq, Hm. simpl.
  by rewrite (observe_not_finite st hq _ _ Tq).
Qed.

Lemma middleware_state req st : (middleware req st).2 = st.
Proof.
  unfold middleware, mbind, M_mbind, M_bind, get. simpl.
  repeat case_bool_decide; simpl; [done | done |].
  by destruct (responseTimeHistogram st).
Qed.

Lemma middleware_passes req st h :
  url req <> metricsRoute st ->
  url req <> Some (ToString (metricsRoute st) +:+ ".json") ->
  responseTimeHistogram st = Some h ->
  middleware req st =
  (Ok (PassedOn
         (set_metrics
            {| timer := Prometheus.startTimer h (method req);
               contentLength :=
                 JsNumber.parseInt_or_0 (reqContentLength req) |}
            req)),
   st).
Proof.
  intros H1 H2 Hh. unfold middleware, mbind, M_mbind, M_bind, get. simpl.
  rewrite !bool_decide_eq_false_2 by done. by rewrite Hh.
Qed.

End handler.

(** ** Claims about the classifier *)

(** C1, as the code has it.  For every completed request without a matched
    route object and without a swagger descriptor whose attached response
    ([req.res]) has status 404: the classifier never returns a label, it
    returns "no label" whenever the parameter substitution is defined, and
    neither the completion handler nor the whole request lifecycle records a
    histogram observation.  (The guard reads [req.route] only; what it does
    to a request routed by swagger is not part of this statement.) *)
Theorem unrouted_404_never_recorded (req : Request) (r : Response) :
  route req = None -> swagger req = None ->
  res req = Some r -> statusCode r = 404%Z ->
  (forall label, _getRoute req <> Ok (Some label)) /\
  (substitution_defined req = true -> _getRoute req = Ok None) /\
  (forall res st, (_handleResponse req res st).2 = st) /\
  (forall res st, observed (lifecycle req res st).2 = observed st).
Proof.
  intros Hrt _ Hres Hcode.
  assert (Hguard : unrouted_404 req = true).
  { unfold unrouted_404. rewrite Hrt, Hres, Hcode. done. }
  assert (Hcases : _getRoute req = Ok None \/ exists e, _getRoute req = Throw e).
  { rewrite getRoute_stages, Hguard.
    destruct (substitute_params (params req) (select_route req)); simpl; eauto. }
  assert (Hhandler : forall req' res st,
             _getRoute req' = _getRoute req -> (_handleResponse req' res st).2 = st).
  { intros req' res st Heq. destruct Hcases as [E|[e E]]; rewrite <- Heq in E.
    - by rewrite (handleResponse_unlabelled _ _ _ _ E).
    - by rewrite (handleResponse_thrown _ _ _ _ E). }
  split; [|split; [|split]].
  - intros label E. destruct Hcases as [E'|[e E']]; congruence.
  - intros [v E]%getRoute_defined. destruct Hcases as [E'|[e E']]; congruence.
  - intros res st. by apply Hhandler.
  - intros res st. unfold lifecycle, mbind, M_mbind, M_bind.
    pose proof (middleware_state req st) as Hst.
    destruct (middleware req st) as [[[reply|req']|e] st'] eqn:Hmw;
      simpl in Hst; subst st'; simpl; try done.
    unfold on_finish. rewrite Hhandler; [done|].
    unfold middleware, mbind, M_mbind, M_bind, get in Hmw. simpl in Hmw.
    repeat case_bool_decide; simpl in Hmw; try done.
    destruct (responseTimeHistogram st); simpl in Hmw; [|done].
    injection Hmw as <-. apply getRoute_set_metrics.
Qed.

(** Express, no route matched, status 404: [GET /missing]. *)
Lemma unrouted_404_never_recorded_witness :
  route get_missing = None /\
  swagger get_missing = None /\
  res get_missing = Some (response 404 None) /\
  statusCode (response 404 None) = 404%Z /\
  _getRoute get_missing = Ok None /\
  observed (lifecycle get_missing (response 404 None) started).2 =
  observed started.
Proof.
  pose proof (unrouted_404_never_recorded get_missing
                (response 404 None) eq_refl eq_refl eq_refl eq_refl)
    as (_ & H2 & _ & H4).
  split; [reflexivity|]. split; [reflexivity|]. split; [reflexivity|].
  split; [reflexivity|]. split; [apply H2; reflexivity | apply H4].
Defined.

(** C1 as it is worded fails on two requests that end with status 404 and
    have no matched route: one whose request object has no [req.res] is
    classified by its raw URL and recorded three times; one whose
    [req.params] is [null] makes the classifier throw instead of returning
    "no label". *)
Lemma unrouted_404_recorded_or_thrown :
  (route get_missing_without_res = None /\
   statusCode (response 404 None) = 404%Z /\
   _getRoute get_missing_without_res = Ok (Some "/missing") /\
   observed (lifecycle get_missing_without_res (response 404 None) started).2 =
   recorded "http_request_size_bytes" "http_request_duration_seconds"
     "http_response_size_bytes"
     {| l_method := "GET"; l_route := "/missing"; l_code := 404 |} 120 0) /\
  (route get_missing_null_params = None /\
   (statusCode <$> res get_missing_null_params) = Some 404%Z /\
   _getRoute get_missing_null_params = Throw TypeError).
Proof. vm_compute. repeat split. Qed.

(** C2, as the code has it.  For every completed request with a matched
    route object and an object of path parameters whose names hold no dollar
    sign, the route label is the selected pattern in which the parameters
    were taken in the order of [Object.keys] and, for each, the leftmost
    literal occurrence of its value (if there is one) was replaced by
    [:name].  The selected pattern is the route pattern itself when the
    request has no swagger descriptor and no base path. *)
Theorem route_label_first_occurrences (req : Request) (rt : Route)
  (pattern : string) (entries : list (string * option string)) :
  route req = Some rt ->
  select_route req = Some pattern ->
  params req = ParamsObject entries ->
  Forall (fun entry => JsString.dollar_free entry.1 = true) entries ->
  (exists label,
     _getRoute req = Ok (Some label) /\
     first_occurrences_replaced entries pattern label) /\
  (swagger req = None -> truthy (baseUrl req) = false ->
   truthy (url req) = true -> pattern = path rt).
Proof.
  intros Hrt Hsel Hparams Hnames. split.
  - destruct (replace_params_first entries pattern Hnames) as (label & E & H).
    exists label. split; [|done].
    rewrite getRoute_stages, Hsel, Hparams, (routed_not_404 _ _ Hrt).
    simpl. by rewrite E.
  - intros Hsw Hbase Hurl.
    rewrite (select_route_pattern _ _ Hsw Hbase Hurl Hrt) in Hsel. congruence.
Qed.

(** The example of the specification: [/users/:id] with [id=42]. *)
Lemma route_label_users_id :
  route get_users_42 = Some {| path := "/users/:id" |} /\
  params get_users_42 = ParamsObject [("id", Some "42")] /\
  _getRoute get_users_42 = Ok (Some "/users/:id") /\
  exists label,
    _getRoute get_users_42 = Ok (Some label) /\
    first_occurrences_replaced [("id", Some "42")] "/users/:id" label.
Proof.
  split; [reflexivity|]. split; [reflexivity|]. split; [reflexivity|].
  apply (route_label_first_occurrences get_users_42 {| path := "/users/:id" |}
           "/users/:id" [("id", Some "42")]); try reflexivity.
  repeat constructor.
Defined.

(** C2 as it is worded fails: on [/list/list/:page] with [page=list] only the
    first occurrence of the value is replaced. *)
Lemma route_label_not_every_occurrence :
  route get_list_list = Some {| path := "/list/list/:page" |} /\
  params get_list_list = ParamsObject [("page", Some "list")] /\
  replace_every [("page", Some "list")] "/list/list/:page" =
    "/:page/:page/:page" /\
  _getRoute get_list_list = Ok (Some "/:page/list/:page") /\
  _getRoute get_list_list <>
    Ok (Some (replace_every [("page", Some "list")] "/list/list/:page")).
Proof.
  split; [reflexivity|]. split; [reflexivity|]. split; [reflexivity|].
  split; [reflexivity|]. vm_compute. discriminate.
Qed.

(** C4, as the code has it.  The classifier returns when [req.params] is not
    [null] and, if it has an entry, some source gave the label a string.  The
    completion handler then returns too, once the factory has set the
    histogram variables and the middleware has set [req.metrics], provided
    the three metrics are histograms declared with the labels of the module
    and the two content lengths are finite. *)
Theorem completion_returns_when_defined (req : Request) :
  substitution_defined req = true ->
  (exists v, _getRoute req = Ok v) /\
  (forall res st hq hs m,
     requestSizeHistogram st = Some hq ->
     responseSizeHistogram st = Some hs ->
     metrics req = Some m ->
     takes_observations st hq = true ->
     takes_observations st (timer_histogram (timer m)) = true ->
     takes_observations st hs = true ->
     JsNumber.is_finite (contentLength m) = true ->
     JsNumber.is_finite (JsNumber.parseInt_or_0 (resContentLength res)) = true ->
     (_handleResponse req res st).1 = Ok tt).
Proof.
  intros Hdef. apply getRoute_defined in Hdef as [v E].
  split; [by exists v|].
  intros res st hq hs m Hq Hs Hm Tq Td Ts Fq Fs.
  destruct v as [label|].
  - destruct (String.eqb_spec label "") as [->|Hne].
    + by rewrite (handleResponse_unlabelled _ _ _ _ E).
    + by rewrite (handleResponse_labelled _ _ _ _ _ _ _ E Hne Hq Hs Hm).
  - by rewrite (handleResponse_unlabelled _ _ _ _ E).
Qed.

Lemma completion_returns_when_defined_witness :
  substitution_defined get_order_arrived = true /\
  (exists v, _getRoute get_order_arrived = Ok v) /\
  (_handleResponse get_order_arrived (response 200 (Some "340")) started).1 =
  Ok tt.
Proof.
  split; [reflexivity|].
  destruct (completion_returns_when_defined get_order_arrived eq_refl)
    as [Hroute Hhandler].
  split; [exact Hroute|].
  by apply (Hhandler (response 200 (Some "340")) started
              "http_request_size_bytes" "http_response_size_bytes"
              {| timer :=
                   Prometheus.startTimer "http_request_duration_seconds" "GET";
                 contentLength := 120%Z |});
    vm_compute.
Defined.

(** C4 as it is worded fails: with no base path, no URL, no route and no
    swagger descriptor the label is [undefined], and the first parameter
    makes [route.replace] throw; the exception leaves the handler. *)
Lemma classifier_throws_without_source :
  _getRoute get_without_source = Throw TypeError /\
  forall res st, (_handleResponse get_without_source res st).1 = Throw TypeError.
Proof.
  split; [reflexivity|].
  intros res st. by rewrite (handleResponse_thrown _ _ _ TypeError).
Qed.

(** C7, as the code has it.  For every completed request with no matched
    route, no swagger descriptor, no (or an empty) base path, a non-empty raw
    URL, and no attached response of status 404, the label selected is the
    raw URL; the classifier returns it after the parameter substitution, and
    returns it verbatim when the request carries no parameter whose value
    occurs in it. *)
Theorem unrouted_label_is_raw_url (req : Request) (u : string) :
  swagger req = None -> route req = None -> truthy (baseUrl req) = false ->
  url req = Some u -> u <> "" -> unrouted_404 req = false ->
  select_route req = Some u /\
  _getRoute req = substitute_params (params req) (Some u) /\
  (params_inert (params req) u -> _getRoute req = Ok (Some u)).
Proof.
  intros Hsw Hrt Hbase Hurl Hne Hguard.
  pose proof (select_route_url _ _ Hsw Hrt Hbase Hurl Hne) as Hsel.
  split; [done|]. split.
  - rewrite getRoute_stages, Hsel, Hguard.
    by destruct (substitute_params (params req) (Some u)).
  - intros Hinert. by rewrite (getRoute_inert _ _ Hsel Hinert), Hguard.
Qed.

Lemma unrouted_label_is_raw_url_witness :
  route get_private = None /\
  url get_private = Some "/private" /\
  (statusCode <$> res get_private) = Some 401%Z /\
  _getRoute get_private = Ok (Some "/private").
Proof.
  destruct (unrouted_label_is_raw_url get_private "/private")
    as (_ & _ & H); try reflexivity; [discriminate|].
  split; [reflexivity|]. split; [reflexivity|]. split; [reflexivity|].
  apply H. constructor.
Defined.

(** C7 as it is worded fails: a request answered with 401 inside a router
    mounted at [/api], before any route matched, is labelled with the base
    path and not with its raw URL. *)
Lemma unrouted_label_is_base_path :
  route get_api_unrouted = None /\
  swagger get_api_unrouted = None /\
  (statusCode <$> res get_api_unrouted) = Some 401%Z /\
  url get_api_unrouted = Some "/users/5" /\
  _getRoute get_api_unrouted = Ok (Some "/api").
Proof. repeat split. Qed.

(** C8, as the code has it.  For every completed request whose swagger
    descriptor has a path pattern, that pattern is the label selected,
    whatever the base path, the matched route and the raw URL are.  Unless
    the request has no matched route object and an attached response of
    status 404, the classifier returns it after the parameter substitution,
    hence unchanged when the request carries no parameter whose value occurs
    in it. *)
Theorem swagger_pattern_has_priority (req : Request) (sw : Swagger)
  (pattern : string) :
  swagger req = Some sw -> apiPath sw = Some pattern ->
  select_route req = Some pattern /\
  (unrouted_404 req = false ->
   _getRoute req = substitute_params (params req) (Some pattern)) /\
  (unrouted_404 req = false -> params_inert (params req) pattern ->
   _getRoute req = Ok (Some pattern)).
Proof.
  intros Hsw Hpath.
  assert (Hsel : select_route req = Some pattern).
  { by rewrite (select_route_swagger _ _ Hsw). }
  split; [done|]. split.
  - intros Hguard. rewrite getRoute_stages, Hsel, Hguard.
    by destruct (substitute_params (params req) (Some pattern)).
  - intros Hguard Hinert. by rewrite (getRoute_inert _ _ Hsel Hinert), Hguard.
Qed.

Lemma swagger_pattern_has_priority_witness :
  swagger get_pet = Some {| apiPath := Some "/pets/{id}" |} /\
  select_route get_pet = Some "/pets/{id}" /\
  _getRoute get_pet = Ok (Some "/pets/{id}").
Proof.
  destruct (swagger_pattern_has_priority get_pet
              {| apiPath := Some "/pets/{id}" |} "/pets/{id}" eq_refl eq_refl)
    as (Hsel & _ & Hret).
  split; [reflexivity|]. split; [exact Hsel|].
  apply Hret; [reflexivity | constructor].
Defined.

(** C8 as it is worded fails on two swagger-routed requests.  The pattern
    [/v1/pets/{id}] is rewritten by the parameter [id=1], whose value occurs
    in it.  And under Express with swagger routing there is no [req.route]:
    when the handler of [/pets/{id}] answers 404 the classifier returns
    "no label". *)
Lemma swagger_pattern_rewritten_or_dropped :
  ((apiPath <$> swagger get_pet_v1) = Some (Some "/v1/pets/{id}") /\
   _getRoute get_pet_v1 = Ok (Some "/v:id/pets/{id}")) /\
  ((apiPath <$> swagger get_pet_not_found) = Some (Some "/pets/{id}") /\
   _getRoute get_pet_not_found = Ok None).
Proof. repeat split. Qed.

(** C9, as the code has it.  For every completed request without a swagger
    descriptor that has a non-empty base path and a matched route, the label
    selected is the base path followed by the route pattern, or the base path
    alone when the pattern is [/].  The classifier returns it after the
    parameter substitution, and returns it unchanged when the request carries
    no parameter whose value occurs in it. *)
Theorem base_path_joined_with_pattern (req : Request) (base : string)
  (rt : Route) :
  swagger req = None -> baseUrl req = Some base -> base <> "" ->
  route req = Some rt ->
  let label := if String.eqb (path rt) "/" then base else base +:+ path rt in
  select_route req = Some label /\
  _getRoute req = substitute_params (params req) (Some label) /\
  (params_inert (params req) label -> _getRoute req = Ok (Some label)).
Proof.
  intros Hsw Hbase Hne Hrt label.
  pose proof (select_route_base _ _ _ Hsw Hbase Hne Hrt) as Hsel.
  fold label in Hsel. split; [done|]. split.
  - rewrite getRoute_stages, Hsel, (routed_not_404 _ _ Hrt).
    by destruct (substitute_params (params req) (Some label)).
  - intros Hinert.
    by rewrite (getRoute_inert _ _ Hsel Hinert), (routed_not_404 _ _ Hrt).
Qed.

Lemma base_path_joined_with_pattern_witness :
  baseUrl get_api_users_a = Some "/api" /\
  route get_api_users_a = Some {| path := "/users/:id" |} /\
  select_route get_api_users_a = Some "/api/users/:id".
Proof.
  split; [reflexivity|]. split; [reflexivity|].
  apply (base_path_joined_with_pattern get_api_users_a "/api"
           {| path := "/users/:id" |}); try reflexivity.
  discriminate.
Defined.

(** C9 as it is worded fails: for [GET /api/users/a] the value [a] of the
    parameter [id] occurs in the joined label, whose first [a] is replaced. *)
Lemma joined_label_rewritten_by_parameter :
  swagger get_api_users_a = None /\
  baseUrl get_api_users_a = Some "/api" /\
  route get_api_users_a = Some {| path := "/users/:id" |} /\
  _getRoute get_api_users_a = Ok (Some "/:idpi/users/:id").
Proof. repeat split. Qed.

(** ** [parseInt] on header values *)

Section parse_int.

Lemma decimal_digit_value c :
  is_decimal_digit c = true ->
  JsNumber.is_white_space c = false /\
  Ascii.eqb c "-" = false /\ Ascii.eqb c "+" = false /\
  Ascii.eqb c "x" = false /\ Ascii.eqb c "X" = false /\
  JsNumber.radix_digit 10 c = Some (Z.of_nat (nat_of_ascii c) - 48)%Z /\
  (0 <= Z.of_nat (nat_of_ascii c) - 48)%Z.
Proof.
  destruct c as [[] [] [] [] [] [] [] []]; try discriminate;
    intros _; repeat split; done.
Qed.

Lemma parse_digits_decimal s acc :
  all_decimal s = true ->
  JsNumber.parse_digits 10 s (Some acc) = Some (decimal_value acc s).
Proof.
  revert acc. induction s as [|c t IH]; intros acc; [done|].
  cbn [all_decimal]. intros [Hc Ht]%andb_prop.
  destruct (decimal_digit_value c Hc) as (_ & _ & _ & _ & _ & Hd & _).
  cbn [JsNumber.parse_digits decimal_value]. rewrite Hd. by apply IH.
Qed.

Lemma decimal_value_not_negative s acc :
  all_decimal s = true -> (0 <= acc)%Z -> (0 <= decimal_value acc s)%Z.
Proof.
  revert acc. induction s as [|c t IH]; intros acc; [done|].
  cbn [all_decimal decimal_value]. intros [Hc Ht]%andb_prop Hacc.
  destruct (decimal_digit_value c Hc) as (_ & _ & _ & _ & _ & _ & Hd).
  apply IH; [done | lia].
Qed.

(** A decimal numeral is read whole. *)
Lemma mathematical_value_decimal s :
  s <> "" -> all_decimal s = true ->
  JsNumber.mathematical_value (Some s) = Some (decimal_value 0 s).
Proof.
  destruct s as [|c t]; [done|]. intros _. cbn [all_decimal].
  intros [Hc Ht]%andb_prop.
  destruct (decimal_digit_value c Hc) as (Hw & Hm & Hp & _ & _ & Hd & _).
  unfold JsNumber.mathematical_value.
  cbn [ToString JsNumber.trim_start]. rewrite Hw, Hm, Hp.
  assert (Hradix :
    match String c t with
    | String z (String x t') =>
        if Ascii.eqb z "0" && (Ascii.eqb x "x" || Ascii.eqb x "X")
        then (16%Z, t') else (10%Z, String c t)
    | _ => (10%Z, String c t)
    end = (10%Z, String c t)).
  { destruct t as [|x t']; [done|]. cbn [all_decimal] in Ht.
    apply andb_prop in Ht as [Hx _].
    destruct (decimal_digit_value x Hx) as (_ & _ & _ & Hx1 & Hx2 & _).
    rewrite Hx1, Hx2. by rewrite andb_false_r. }
  rewrite Hradix. cbn [JsNumber.parse_digits]. rewrite Hd.
  rewrite parse_digits_decimal by done. simpl.
  cbn [decimal_value]. by destruct (decimal_value _ t).
Qed.

(** An integer of at most 53 bits is its own double. *)
Lemma round_magnitude_exact n :
  (0 <= n < 2 ^ 53)%Z -> JsNumber.round_magnitude n = Some n.
Proof.
  intros H. unfold JsNumber.round_magnitude.
  destruct (Z.eqb_spec n 0) as [->|Hn]; [done|].
  assert (Z.log2 n < 53)%Z by (apply Z.log2_lt_pow2; lia).
  destruct (Z.leb_spec (Z.log2 n + 1) 53); [done | lia].
Qed.

Lemma to_double_exact z :
  (Z.abs z < 2 ^ 53)%Z -> JsNumber.to_double z = JsNumber.Finite z.
Proof.
  intros H. unfold JsNumber.to_double.
  rewrite round_magnitude_exact by lia. f_equal. lia.
Qed.

Lemma parseInt_decimal s :
  s <> "" -> all_decimal s = true -> (decimal_value 0 s < 2 ^ 53)%Z ->
  JsNumber.parseInt_or_0 (Some s) = JsNumber.Finite (decimal_value 0 s).
Proof.
  intros Hne Hs Hbound. unfold JsNumber.parseInt_or_0, JsNumber.parseInt.
  rewrite mathematical_value_decimal by done.
  pose proof (decimal_value_not_negative s 0 Hs ltac:(lia)).
  by rewrite to_double_exact by lia.
Qed.

(** A value that does not start like a number is [NaN], hence 0. *)
Lemma parseInt_non_numeric s :
  starts_non_numeric s = true ->
  JsNumber.parseInt_or_0 (Some s) = JsNumber.Finite 0.
Proof.
  destruct s as [|c t]; [done|].
  destruct c as [[] [] [] [] [] [] [] []]; try discriminate; intros _;
    by destruct t.
Qed.

Lemma parseInt_absent_header :
  JsNumber.parseInt_or_0 None = JsNumber.Finite 0.
Proof. done. Qed.

End parse_int.

Section two_snapshots.

Implicit Types (req fin : Request) (res : Response) (st : State).

Lemma getRoute_at_finish req fin : _getRoute (at_finish req fin) = _getRoute fin.
Proof. done. Qed.

(** The lifecycle of a request whose fields do not change is the lifecycle
    over one request. *)
Lemma request_lifecycle_same req res st :
  request_lifecycle req req res st = lifecycle req res st.
Proof.
  unfold request_lifecycle, lifecycle, mbind, M_mbind, M_bind.
  destruct (middleware req st) as [[[reply|req']|e] st'] eqn:Hmw; try done.
  unfold middleware, mbind, M_mbind, M_bind, get in Hmw. simpl in Hmw.
  repeat case_bool_decide; simpl in Hmw; try done.
  destruct (responseTimeHistogram st); simpl in Hmw; [|done].
  by injection Hmw as <- <-.
Qed.

Lemma request_lifecycle_passed req fin res st hd :
  url req <> metricsRoute st ->
  url req <> Some (ToString (metricsRoute st) +:+ ".json") ->
  responseTimeHistogram st = Some hd ->
  request_lifecycle req fin res st =
  _handleResponse
    (at_finish
       (set_metrics
          {| timer := Prometheus.startTimer hd (method req);
             contentLength :=
               JsNumber.parseInt_or_0 (reqContentLength req) |} req)
       fin)
    res st.
Proof.
  intros Hurl Hjson Hd. unfold request_lifecycle, mbind, M_mbind, M_bind.
  by rewrite (middleware_passes _ _ _ Hurl Hjson Hd).
Qed.

End two_snapshots.

(** ** Claims about the middleware and the completion handler *)

(** C6, as the code has it.  A request arrives as [req] and its response
    finishes when its fields are those of [fin].  When the middleware passed
    the request on, the three metrics are histograms declared with the labels
    method, route and code, the classifier returns a non-empty route label at
    the finish, and both content lengths are finite numbers, exactly three
    observations are recorded, in this order: request-size histogram,
    duration timer, response-size histogram.  The route and the status code
    are the same in the three; the method of the duration is the one read at
    the arrival, the method of the two sizes the one read at the finish, so
    the three label tuples are identical when the method did not change.
    The sizes are the [parseInt] of the two content-length headers, which is
    0 for an absent header and for a value that does not start like a
    number, and the value of a decimal numeral below 2^53. *)
Theorem labelled_request_recorded_thrice (req fin : Request) (res : Response)
  (st : State) (hd hq hs label : string) :
  url req <> metricsRoute st ->
  url req <> Some (ToString (metricsRoute st) +:+ ".json") ->
  responseTimeHistogram st = Some hd ->
  requestSizeHistogram st = Some hq ->
  responseSizeHistogram st = Some hs ->
  takes_observations st hd = true ->
  takes_observations st hq = true ->
  takes_observations st hs = true ->
  _getRoute fin = Ok (Some label) -> label <> "" ->
  JsNumber.is_finite (JsNumber.parseInt_or_0 (reqContentLength req)) = true ->
  JsNumber.is_finite (JsNumber.parseInt_or_0 (resContentLength res)) = true ->
  request_lifecycle req fin res st =
    (Ok tt,
     set_observed
       (observed st ++
        [ {| o_histogram := hq;
             o_labels := {| l_method := method fin; l_route := label;
                            l_code := statusCode res |};
             o_value :=
               Size (JsNumber.parseInt_or_0 (reqContentLength req)) |};
          {| o_histogram := hd;
             o_labels := {| l_method := method req; l_route := label;
                            l_code := statusCode res |};
             o_value := ElapsedSeconds |};
          {| o_histogram := hs;
             o_labels := {| l_method := method fin; l_route := label;
                            l_code := statusCode res |};
             o_value :=
               Size (JsNumber.parseInt_or_0 (resContentLength res)) |} ])
       st) /\
  (method fin = method req ->
   request_lifecycle req fin res st =
     (Ok tt,
      set_observed
        (observed st ++
         recorded hq hd hs
           {| l_method := method req; l_route := label;
              l_code := statusCode res |}
           (JsNumber.parseInt_or_0 (reqContentLength req))
           (JsNumber.parseInt_or_0 (resContentLength res)))
        st)) /\
  JsNumber.parseInt_or_0 None = 0%Z /\
  (forall s, starts_non_numeric s = true ->
             JsNumber.parseInt_or_0 (Some s) = 0%Z) /\
  (forall s, s <> "" -> all_decimal s = true ->
             (decimal_value 0 s < 2 ^ 53)%Z ->
             JsNumber.parseInt_or_0 (Some s) = decimal_value 0 s).
Proof.
  intros Hurl Hjson Hd Hq Hs Td Tq Ts Hlabel Hne Fq Fs.
  assert (E : request_lifecycle req fin res st =
    (Ok tt,
     set_observed
       (observed st ++
        [ {| o_histogram := hq;
             o_labels := {| l_method := method fin; l_route := label;
                            l_code := statusCode res |};
             o_value :=
               Size (JsNumber.parseInt_or_0 (reqContentLength req)) |};
          {| o_histogram := hd;
             o_labels := {| l_method := method req; l_route := label;
                            l_code := statusCode res |};
             o_value := ElapsedSeconds |};
          {| o_histogram := hs;
             o_labels := {| l_method := method fin; l_route := label;
                            l_code := statusCode res |};
             o_value :=
               Size (JsNumber.parseInt_or_0 (resContentLength res)) |} ])
       st)).
  { rewrite (request_lifecycle_passed req fin res st hd Hurl Hjson Hd).
    set (m := {| timer := Prometheus.startTimer hd (method req);
                 contentLength :=
                   JsNumber.parseInt_or_0 (reqContentLength req) |}).
    exact (handleResponse_labelled (at_finish (set_metrics m req) fin) res st
             label hq hs m Hlabel Hne Hq Hs eq_refl Tq Td Ts Fq Fs). }
  split; [exact E|]. split.
  - intros Hmethod. rewrite E. unfold recorded. by rewrite Hmethod.
  - split; [done|]. split; [apply parseInt_non_numeric | apply parseInt_decimal].
Qed.

(** The scenario of the specification: [GET /orders/abc123], request
    content-length ["120"], response content-length ["340"], status 200. *)
Lemma get_order_recorded_thrice :
  _getRoute get_order = Ok (Some "/orders/:orderId") /\
  observed
    (request_lifecycle get_order get_order (response 200 (Some "340"))
       started).2 =
  recorded "http_request_size_bytes" "http_request_duration_seconds"
    "http_response_size_bytes"
    {| l_method := "GET"; l_route := "/orders/:orderId"; l_code := 200 |}
    120 340.
Proof.
  split; [reflexivity|].
  destruct (labelled_request_recorded_thrice get_order get_order
              (response 200 (Some "340")) started
              "http_request_duration_seconds" "http_request_size_bytes"
              "http_response_size_bytes" "/orders/:orderId")
    as [H _]; [vm_compute; congruence .. |].
  rewrite H. reflexivity.
Defined.

(** C6 as it is worded fails in three ways.  When the classifier returns the
    empty string, as for a swagger descriptor whose path is empty,
    [if (route)] is false and nothing is recorded.  When the response's
    content-length is a numeral of 310 digits, [parseInt] returns
    [Infinity]: the first two observations are made, then [observe] throws.
    When the method of the request is rewritten between the arrival and the
    finish, the duration carries the old method and the sizes the new one.
    And a numeral above 2^53 is rounded to a double. *)
Lemma labelled_request_not_always_thrice :
  (_getRoute get_swagger_empty_path = Ok (Some "") /\
   observed
     (request_lifecycle get_swagger_empty_path get_swagger_empty_path
        (response 200 None) started).2 = []) /\
  (_getRoute get_order = Ok (Some "/orders/:orderId") /\
   all_decimal oversized = true /\
   JsNumber.parseInt_or_0 (Some oversized) = JsNumber.Infinity false /\
   (request_lifecycle get_order get_order (response 200 (Some oversized))
      started).1 = Throw TypeError /\
   observed
     (request_lifecycle get_order get_order (response 200 (Some oversized))
        started).2 =
   [ {| o_histogram := "http_request_size_bytes";
        o_labels := {| l_method := "GET"; l_route := "/orders/:orderId";
                       l_code := 200 |};
        o_value := Size 120%Z |};
     {| o_histogram := "http_request_duration_seconds";
        o_labels := {| l_method := "GET"; l_route := "/orders/:orderId";
                       l_code := 200 |};
        o_value := ElapsedSeconds |} ]) /\
  (_getRoute put_item = Ok (Some "/items/:id") /\
   observed (request_lifecycle post_item put_item (response 200 None)
               started).2 =
   [ {| o_histogram := "http_request_size_bytes";
        o_labels := {| l_method := "PUT"; l_route := "/items/:id";
                       l_code := 200 |};
        o_value := Size 120%Z |};
     {| o_histogram := "http_request_duration_seconds";
        o_labels := {| l_method := "POST"; l_route := "/items/:id";
                       l_code := 200 |};
        o_value := ElapsedSeconds |};
     {| o_histogram := "http_response_size_bytes";
        o_labels := {| l_method := "PUT"; l_route := "/items/:id";
                       l_code := 200 |};
        o_value := Size 0%Z |} ]) /\
  JsNumber.parseInt_or_0 (Some "9007199254740993") = 9007199254740992%Z.
Proof.
  split; [split; [reflexivity | by vm_compute]|].
  split; [|split; [split; [reflexivity | by vm_compute] | by vm_compute]].
  split; [reflexivity|]. split; [by vm_compute|]. split; [by vm_compute|].
  split; by vm_compute.
Qed.

(** C5.  For every request whose URL is the configured metrics path the
    middleware answers with the text exposition of the registry under the
    registry's content type; for every request whose URL is that path
    followed by [.json] it answers with the array of metric records.  In both
    cases [next] is not called, no finish listener is added, and the state,
    so also the list of observations, is what it was. *)
Theorem metrics_endpoint_served (req : Request) (st : State) (p : string) :
  metricsRoute st = Some p ->
  (url req = Some p ->
   middleware req st =
     (Ok (Replied (EndText Prometheus.contentType
                     (Prometheus.TextOf (Prometheus.snapshot st)))), st) /\
   forall res, lifecycle req res st = (Ok tt, st)) /\
  (url req = Some (p +:+ ".json") ->
   middleware req st =
     (Ok (Replied (SendJson (Prometheus.snapshot st))), st) /\
   forall res, lifecycle req res st = (Ok tt, st)).
Proof.
  intros Hp. split; intros Hurl.
  - assert (E : middleware req st =
      (Ok (Replied (EndText Prometheus.contentType
                      (Prometheus.TextOf (Prometheus.snapshot st)))), st)).
    { unfold middleware, mbind, M_mbind, M_bind, get. simpl.
      rewrite Hp, bool_decide_eq_true_2 by done. done. }
    split; [done|]. intros res.
    unfold lifecycle, mbind, M_mbind, M_bind. by rewrite E.
  - assert (E : middleware req st =
      (Ok (Replied (SendJson (Prometheus.snapshot st))), st)).
    { unfold middleware, mbind, M_mbind, M_bind, get. simpl.
      rewrite Hp, Hurl. rewrite bool_decide_eq_false_2.
      - by rewrite bool_decide_eq_true_2.
      - intros [= H]. by apply append_fixed in H. }
    split; [done|]. intros res.
    unfold lifecycle, mbind, M_mbind, M_bind. by rewrite E.
Qed.

Lemma metrics_endpoint_served_witness :
  metricsRoute started = Some "/metrics" /\
  url (get_url "/metrics") = Some "/metrics" /\
  middleware (get_url "/metrics") started =
    (Ok (Replied (EndText Prometheus.contentType
                    (Prometheus.TextOf (Prometheus.snapshot started)))),
     started) /\
  url (get_url "/metrics.json") = Some ("/metrics" +:+ ".json") /\
  middleware (get_url "/metrics.json") started =
    (Ok (Replied (SendJson (Prometheus.snapshot started))), started).
Proof.
  assert (Hp : metricsRoute started = Some "/metrics") by (by vm_compute).
  split; [exact Hp|]. split; [reflexivity|]. split.
  - apply (metrics_endpoint_served (get_url "/metrics") started "/metrics" Hp).
    reflexivity.
  - split; [reflexivity|].
    apply (metrics_endpoint_served (get_url "/metrics.json") started
             "/metrics" Hp).
    reflexivity.
Defined.

(** C10.  The match on the metrics path is string equality on the whole URL:
    a request whose URL is the metrics path followed by any non-empty text
    other than [.json] is not answered by the middleware; it gets a timer and
    its content length like any other request and is passed on, and its
    finish event runs the completion handler. *)
Theorem metrics_path_match_is_exact (req : Request) (st : State)
  (p extra h : string) :
  metricsRoute st = Some p ->
  url req = Some (p +:+ extra) -> extra <> "" -> extra <> ".json" ->
  responseTimeHistogram st = Some h ->
  let req' :=
    set_metrics
      {| timer := Prometheus.startTimer h (method req);
         contentLength := JsNumber.parseInt_or_0 (reqContentLength req) |}
      req in
  middleware req st = (Ok (PassedOn req'), st) /\
  forall res, lifecycle req res st = _handleResponse req' res st.
Proof.
  intros Hp Hurl Hne Hjson Hh req'.
  assert (E : middleware req st = (Ok (PassedOn req'), st)).
  { apply middleware_passes; [| |done]; rewrite Hp, Hurl; simpl.
    - intros [= H]. by apply append_fixed in H.
    - intros [= H]. by apply append_cancel_l in H. }
  split; [done|]. intros res.
  unfold lifecycle, mbind, M_mbind, M_bind. by rewrite E.
Qed.

Lemma metrics_path_match_is_exact_witness :
  metricsRoute started = Some "/metrics" /\
  url (get_url "/metrics?x=1") = Some ("/metrics" +:+ "?x=1") /\
  (exists req', middleware (get_url "/metrics?x=1") started =
                  (Ok (PassedOn req'), started)) /\
  (exists req', middleware (get_url "/metrics/") started =
                  (Ok (PassedOn req'), started)).
Proof.
  assert (Hp : metricsRoute started = Some "/metrics") by (by vm_compute).
  assert (Hh : responseTimeHistogram started =
               Some "http_request_duration_seconds") by (by vm_compute).
  split; [exact Hp|]. split; [reflexivity|]. split.
  - destruct (metrics_path_match_is_exact (get_url "/metrics?x=1") started
                "/metrics" "?x=1" "http_request_duration_seconds" Hp eq_refl)
      as [E _]; [discriminate | discriminate | exact Hh |].
    by eexists.
  - destruct (metrics_path_match_is_exact (get_url "/metrics/") started
                "/metrics" "/" "http_request_duration_seconds" Hp eq_refl)
      as [E _]; [discriminate | discriminate | exact Hh |].
    by eexists.
Defined.

(** ** The factory *)

Section factory.

Implicit Types (reg : gmap string Metric) (st : State).

Lemma ensure_lookup name m reg : is_Some (ensure name m reg !! name).
Proof.
  unfold ensure. destruct (reg !! name) eqn:E.
  - by rewrite E.
  - by rewrite lookup_insert_eq.
Qed.

Lemma ensure_keeps name m reg k :
  is_Some (reg !! k) -> is_Some (ensure name m reg !! k).
Proof.
  intros Hk. unfold ensure. destruct (reg !! name) eqn:E; [done|].
  destruct (decide (name = k)) as [->|Hne].
  - by rewrite lookup_insert_eq.
  - by rewrite lookup_insert_ne.
Qed.


Lemma ensure_version_lookup name v reg :
  is_Some (ensure_version name v reg !! name).
Proof.
  unfold ensure_version. destruct (reg !! name) eqn:E.
  - by rewrite E.
  - by rewrite lookup_alter_eq, lookup_insert_eq.
Qed.


(** The factory never throws, and what it leaves is [after_factory]. *)
Lemma module_exports_run parent options st :
  module_exports parent options st = (Ok tt, after_factory parent options st).
Proof.
  unfold module_exports, after_factory, names_after, get_or_new,
    Prometheus.getSingleMetric, Prometheus.new_metric, Prometheus.set_sample,
    Prometheus.collectDefaultMetrics, ensure, ensure_version,
    mbind, M_mbind, M_bind, mret, M_mret, M_ret, get, modify, skip.
  destruct st as [names interval mroute h1 h2 h3 exit reg obs]. simpl.
  case_bool_decide; simpl;
    repeat (match goal with
            | |- context [@lookup _ _ (gmap string Metric) _ ?k ?m] =>
                destruct (@lookup _ _ (gmap string Metric) _ k m) eqn:?; simpl
            end); by destruct exit.
Qed.

End factory.

Section factory_twice.

Implicit Types (st : State) (parent : Package) (options : Options).


(** With it, every call puts the project name in front of the names the
    previous call left, so the names of the second call are new. *)
Lemma unique_names_are_prefixed_again parent options st :
  useUniqueHistogramName options = Some true ->
  app_version (names_after parent options st) <>
  app_version (metricNames st).
Proof.
  intros Hu. unfold names_after. rewrite bool_decide_eq_true_2 by done.
  simpl. intros H. apply (f_equal String.length) in H.
  rewrite !length_append in H. simpl in H. lia.
Qed.

End factory_twice.

(** C3 at the failing input.  The factory is called twice with
    [useUniqueHistogramName: true] for the package [my-svc].  The second call
    raises no error, but it does not find the definitions of the first: it
    works with names prefixed a second time, registers four more metrics
    under them, so that eight are registered, and leaves the histogram
    variables on the new ones. *)
Theorem factory_twice_prefixes_twice :
  restarted_unique.1 = Ok tt /\
  declared_names started_unique =
    ["my_svc_app_version"; "my_svc_http_request_duration_seconds";
     "my_svc_http_request_size_bytes"; "my_svc_http_response_size_bytes"] /\
  declared_names restarted_unique.2 =
    ["my_svc_my_svc_app_version";
     "my_svc_my_svc_http_request_duration_seconds";
     "my_svc_my_svc_http_request_size_bytes";
     "my_svc_my_svc_http_response_size_bytes"] /\
  size (registry started_unique) = 4%nat /\
  size (registry restarted_unique.2) = 8%nat /\
  Forall (fun name => registry started_unique !! name = None /\
                      is_Some (registry restarted_unique.2 !! name))
    (declared_names restarted_unique.2) /\
  Forall (fun name => is_Some (registry restarted_unique.2 !! name))
    (declared_names started_unique) /\
  requestSizeHistogram restarted_unique.2 =
    Some "my_svc_my_svc_http_request_size_bytes".
Proof.
  split; [by vm_compute|]. split; [by vm_compute|]. split; [by vm_compute|].
  split; [by vm_compute|]. split; [by vm_compute|].
  split; [|split; [|by vm_compute]].
  - replace (declared_names restarted_unique.2) with
      ["my_svc_my_svc_app_version";
       "my_svc_my_svc_http_request_duration_seconds";
       "my_svc_my_svc_http_request_size_bytes";
       "my_svc_my_svc_http_response_size_bytes"] by (by vm_compute).
    repeat (apply Forall_cons_2; [vm_compute; eauto|]). apply Forall_nil_2.
  - replace (declared_names started_unique) with
      ["my_svc_app_version"; "my_svc_http_request_duration_seconds";
       "my_svc_http_request_size_bytes"; "my_svc_http_response_size_bytes"]
      by (by vm_compute).
    repeat (apply Forall_cons_2; [vm_compute; eauto|]). apply Forall_nil_2.
Qed.

(** ** Examples *)

Example replace_first_only : JsString.replace "/a/a" "a" ":x" = "/:x/a".
Proof. reflexivity. Qed.

Example replace_all_both : JsString.replace_all "/a/a" "a" ":x" = "/:x/:x".
Proof. reflexivity. Qed.

Example replace_dollar_pattern :
  JsString.replace "/users/42" "42" ":$&" = "/users/:42".
Proof. reflexivity. Qed.

Example replace_empty_search : JsString.replace "/a" "" ":x" = ":x/a".
Proof. reflexivity. Qed.

Example parseInt_120 : JsNumber.parseInt_or_0 (Some "120") = 120%Z.
Proof. reflexivity. Qed.

Example parseInt_prefix : JsNumber.parseInt_or_0 (Some "12px") = 12%Z.
Proof. reflexivity. Qed.

Example parseInt_hex : JsNumber.parseInt_or_0 (Some " -0x1F;") = (-31)%Z.
Proof. reflexivity. Qed.

Example parseInt_text : JsNumber.parseInt_or_0 (Some "chunked") = 0%Z.
Proof. reflexivity. Qed.

Example parseInt_rounds_to_even :
  JsNumber.parseInt (Some "9007199254740993") = 9007199254740992%Z /\
  JsNumber.parseInt (Some "9007199254740995") = 9007199254740996%Z.
Proof. split; by vm_compute. Qed.

Example parseInt_oversized :
  JsNumber.parseInt (Some oversized) = JsNumber.Infinity false.
Proof. by vm_compute. Qed.

Example version_labels_2_1_2 :
  version_labels "2.1.2" =
  [Text "2.1.2"; NumberOf "2"; NumberOf "1"; NumberOf "2"].
Proof. reflexivity. Qed.

Example version_labels_prerelease :
  version_labels "1.0.0-beta" =
  [Text "1.0.0-beta"; NumberOf "1"; NumberOf "0"; NumberOf "0-beta"].
Proof. reflexivity. Qed.

Example version_labels_two_segments :
  version_labels "1.0" = [Text "1.0"; NumberOf "1"; NumberOf "0"; Undefined].
Proof. reflexivity. Qed.

Example factory_default_names :
  declared_names started =
  ["app_version"; "http_request_duration_seconds"; "http_request_size_bytes";
   "http_response_size_bytes"].
Proof. by vm_compute. Qed.

Example scoped_name_is_refused :
  Prometheus.validateMetricName "@acme/svc_app_version" = false /\
  Prometheus.validateMetricName "my_svc_app_version" = true.
Proof. done. Qed.

(** * Further properties of the module *)

(** ** What the factory does to the registry *)

Section factory_registry.

Implicit Types (reg : gmap string Metric) (st : State).

Lemma ensure_free name m reg :
  reg !! name = None -> ensure name m reg = <[name := m]> reg.
Proof. intros E. unfold ensure. by rewrite E. Qed.

Lemma ensure_version_free name v reg :
  reg !! name = None ->
  ensure_version name v reg =
  <[name := Prometheus.with_sample (version_labels v) (Constant 1)
              version_gauge]> reg.
Proof.
  intros E. unfold ensure_version. rewrite E.
  apply map_eq. intros k. destruct (decide (name = k)) as [->|Hne].
  - by rewrite lookup_alter_eq, !lookup_insert_eq.
  - by rewrite lookup_alter_ne, !lookup_insert_ne.
Qed.

End factory_registry.

Section factory_fresh.

Implicit Types (reg : gmap string Metric) (st : State).

Lemma four_distinct (a b c d : string) :
  NoDup [a; b; c; d] ->
  a <> b /\ a <> c /\ a <> d /\ b <> c /\ b <> d /\ c <> d.
Proof.
  intros H. apply NoDup_cons in H as [Ha H]. apply NoDup_cons in H as [Hb H].
  apply NoDup_cons in H as [Hc _]. set_solver.
Qed.

Lemma four_fresh reg n1 n2 n3 n4 v h2 h3 h4 :
  NoDup [n1; n2; n3; n4] ->
  Forall (fun name => reg !! name = None) [n1; n2; n3; n4] ->
  ensure n4 h4 (ensure n3 h3 (ensure n2 h2 (ensure_version n1 v reg))) =
  <[n4 := h4]> (<[n3 := h3]> (<[n2 := h2]>
    (<[n1 := Prometheus.with_sample (version_labels v) (Constant 1)
               version_gauge]>
       reg))).
Proof.
  intros (H12 & H13 & H14 & H23 & H24 & H34)%four_distinct Hfree.
  apply Forall_cons in Hfree as [F1 Hfree].
  apply Forall_cons in Hfree as [F2 Hfree].
  apply Forall_cons in Hfree as [F3 Hfree].
  apply Forall_cons in Hfree as [F4 _].
  rewrite (ensure_version_free _ _ _ F1).
  rewrite (ensure_free n2 h2) by (by rewrite lookup_insert_ne by done).
  rewrite (ensure_free n3 h3)
    by (by do 2 (rewrite lookup_insert_ne by done)).
  by rewrite (ensure_free n4 h4)
    by (by do 3 (rewrite lookup_insert_ne by done)).
Qed.

Lemma four_inserted_lookup reg n1 n2 n3 n4 (m1 m2 m3 m4 : Metric) :
  NoDup [n1; n2; n3; n4] ->
  let reg' := <[n4 := m4]> (<[n3 := m3]> (<[n2 := m2]> (<[n1 := m1]> reg))) in
  reg' !! n1 = Some m1 /\ reg' !! n2 = Some m2 /\
  reg' !! n3 = Some m3 /\ reg' !! n4 = Some m4.
Proof.
  intros (H12 & H13 & H14 & H23 & H24 & H34)%four_distinct reg'. subst reg'.
  pose proof (not_eq_sym H12). pose proof (not_eq_sym H13).
  pose proof (not_eq_sym H14). pose proof (not_eq_sym H23).
  pose proof (not_eq_sym H24). pose proof (not_eq_sym H34).
  split; [by do 3 (rewrite lookup_insert_ne by done); rewrite lookup_insert_eq|].
  split; [by do 2 (rewrite lookup_insert_ne by done); rewrite lookup_insert_eq|].
  split; [by rewrite lookup_insert_ne by done; rewrite lookup_insert_eq|].
  by rewrite lookup_insert_eq.
Qed.

End factory_fresh.

(** ** The first call of the factory *)

Section first_call.

Implicit Types (parent : Package) (options : Options).

Lemma prefixed_names_distinct p :
  NoDup [p +:+ "_app_version"; p +:+ "_http_request_duration_seconds";
         p +:+ "_http_request_size_bytes"; p +:+ "_http_response_size_bytes"].
Proof.
  apply (NoDup_fmap_2 (String.append p)
           ["_app_version"; "_http_request_duration_seconds";
            "_http_request_size_bytes"; "_http_response_size_bytes"]).
  apply (bool_decide_unpack _). by vm_compute.
Qed.

Lemma first_names parent options :
  declared_names (after_factory parent options initial_state) =
  if bool_decide (useUniqueHistogramName options = Some true)
  then [replace_hyphens (pkg_name parent) +:+ "_app_version";
        replace_hyphens (pkg_name parent) +:+ "_http_request_duration_seconds";
        replace_hyphens (pkg_name parent) +:+ "_http_request_size_bytes";
        replace_hyphens (pkg_name parent) +:+ "_http_response_size_bytes"]
  else ["app_version"; "http_request_duration_seconds";
        "http_request_size_bytes"; "http_response_size_bytes"].
Proof.
  unfold declared_names, after_factory, names_after. cbn [metricNames].
  by case_bool_decide.
Qed.

Lemma first_names_distinct parent options :
  NoDup (declared_names (after_factory parent options initial_state)).
Proof.
  rewrite first_names. case_bool_decide.
  - apply prefixed_names_distinct.
  - apply (bool_decide_unpack _). by vm_compute.
Qed.

(** The registry after the first call holds the four definitions. *)
Lemma first_registry parent options :
  let names := names_after parent options initial_state in
  registry (after_factory parent options initial_state) =
  <[http_response_size_bytes names := response_size_histogram options]>
    (<[http_request_size_bytes names := request_size_histogram options]>
       (<[http_request_duration_seconds names := duration_histogram options]>
          (<[app_version names :=
               Prometheus.with_sample (version_labels (pkg_version parent))
                 (Constant 1) version_gauge]> ∅))).
Proof.
  intros names. unfold after_factory. cbn [registry]. fold names.
  apply four_fresh.
  - apply (first_names_distinct parent options).
  - repeat (apply Forall_cons_2; [apply lookup_empty|]). apply Forall_nil_2.
Qed.

End first_call.

(** The first call of the factory on the loaded module, when it returns
    and the four names it works with are valid metric names.  With
    [useUniqueHistogramName: true] the four names are the project name, an
    underscore and the default name; otherwise they are the default names.
    The three histogram variables hold the three histogram names, the four
    names are registered, the metrics path is the [metricsPath] of the
    options, or [/metrics] when that is absent or empty, the interval is
    the one of [collectDefaultMetrics], called with the timeout of the
    options and the prefix of the names, and the exit listener is marked as
    added. *)
Theorem factory_sets_the_variables (parent : Package) (options : Options) :
  let st' := (module_exports parent options initial_state).2 in
  let projectName := replace_hyphens (pkg_name parent) in
  (module_exports parent options initial_state).1 = Ok tt ->
  Forall (fun name => Prometheus.validateMetricName name = true)
    (declared_names st') ->
  (useUniqueHistogramName options = Some true ->
   declared_names st' =
     [projectName +:+ "_app_version";
      projectName +:+ "_http_request_duration_seconds";
      projectName +:+ "_http_request_size_bytes";
      projectName +:+ "_http_response_size_bytes"] /\
   metricsInterval st' =
     Some {| timeout := defaultMetricsInterval options;
             prefix := projectName +:+ "_" |}) /\
  (useUniqueHistogramName options <> Some true ->
   declared_names st' =
     ["app_version"; "http_request_duration_seconds";
      "http_request_size_bytes"; "http_response_size_bytes"] /\
   metricsInterval st' =
     Some {| timeout := defaultMetricsInterval options; prefix := "" |}) /\
  responseTimeHistogram st' =
    Some (http_request_duration_seconds (metricNames st')) /\
  requestSizeHistogram st' = Some (http_request_size_bytes (metricNames st')) /\
  responseSizeHistogram st' =
    Some (http_response_size_bytes (metricNames st')) /\
  Forall (fun name => is_Some (registry st' !! name)) (declared_names st') /\
  metricsRoute st' =
    Some (match metricsPath options with
          | None | Some "" => "/metrics"
          | Some p => p
          end) /\
  onExitEvent st' = true.
Proof.
  intros st' projectName _ _. subst st' projectName.
  rewrite module_exports_run. cbn [snd].
  split; [|split].
  - intros Hu. rewrite first_names, bool_decide_eq_true_2 by done.
    split; [done|]. unfold after_factory, names_after. cbn [metricsInterval].
    by rewrite bool_decide_eq_true_2.
  - intros Hu. rewrite first_names, bool_decide_eq_false_2 by done.
    split; [done|]. unfold after_factory, names_after. cbn [metricsInterval].
    by rewrite bool_decide_eq_false_2.
  - split; [done|]. split; [done|]. split; [done|]. split.
    + unfold declared_names. simpl.
      apply Forall_cons_2;
        [do 3 apply ensure_keeps; apply ensure_version_lookup|].
      apply Forall_cons_2; [do 2 apply ensure_keeps; apply ensure_lookup|].
      apply Forall_cons_2; [apply ensure_keeps; apply ensure_lookup|].
      apply Forall_cons_2; [apply ensure_lookup | apply Forall_nil_2].
    + split; [|done]. simpl.
      by destruct (metricsPath options) as [[|c p]|].
Qed.

(** The first call for the package [my-svc] with
    [useUniqueHistogramName: true]. *)
Lemma factory_sets_the_variables_witness :
  started_unique = (module_exports sample_package unique_names initial_state).2 /\
  Forall (fun name => Prometheus.validateMetricName name = true)
    (declared_names started_unique) /\
  declared_names started_unique =
    ["my_svc_app_version"; "my_svc_http_request_duration_seconds";
     "my_svc_http_request_size_bytes"; "my_svc_http_response_size_bytes"] /\
  metricsInterval started_unique =
    Some {| timeout := None; prefix := "my_svc_" |}.
Proof.
  split; [reflexivity|].
  assert (Hvalid : Forall (fun name => Prometheus.validateMetricName name = true)
                     (declared_names started_unique)).
  { vm_compute. repeat (apply Forall_cons_2; [reflexivity|]).
    apply Forall_nil_2. }
  split; [exact Hvalid|].
  destruct (factory_sets_the_variables sample_package unique_names)
    as (Hunique & _); [by vm_compute | exact Hvalid |].
  destruct (Hunique eq_refl) as [Hnames Hinterval].
  split; [exact Hnames | exact Hinterval].
Defined.

(** The first call of the factory on the loaded module, when it returns
    and the four names it works with are valid metric names: the names are
    distinct, and under them are registered the version gauge, set to 1
    under the package version and what [Number] makes of its first three
    segments, and the three histograms, declared with the labels method,
    route and code and with the buckets of the options, or the default
    buckets where the options give none.  The three histograms take the
    observations of the completion handler. *)
Theorem factory_registers_fresh_names (parent : Package) (options : Options) :
  let st' := (module_exports parent options initial_state).2 in
  (module_exports parent options initial_state).1 = Ok tt ->
  Forall (fun name => Prometheus.validateMetricName name = true)
    (declared_names st') ->
  NoDup (declared_names st') /\
  registry st' !! app_version (metricNames st') =
    Some (Gauge "The service version by package.json"
            ["version"; "major"; "minor"; "patch"]
            [(zip ["version"; "major"; "minor"; "patch"]
                (version_labels (pkg_version parent)),
              Constant 1)]) /\
  registry st' !! http_request_duration_seconds (metricNames st') =
    Some (Histogram "Duration of HTTP requests in seconds"
            ["method"; "route"; "code"]
            (default default_durationBuckets (durationBuckets options))) /\
  registry st' !! http_request_size_bytes (metricNames st') =
    Some (Histogram "Size of HTTP requests in bytes"
            ["method"; "route"; "code"]
            (default default_sizeBuckets (requestSizeBuckets options))) /\
  registry st' !! http_response_size_bytes (metricNames st') =
    Some (Histogram "Size of HTTP response in bytes"
            ["method"; "route"; "code"]
            (default default_sizeBuckets (responseSizeBuckets options))) /\
  takes_observations st' (http_request_duration_seconds (metricNames st'))
    = true /\
  takes_observations st' (http_request_size_bytes (metricNames st')) = true /\
  takes_observations st' (http_response_size_bytes (metricNames st')) = true.
Proof.
  intros st' _ _. subst st'. rewrite module_exports_run. cbn [snd].
  pose proof (first_names_distinct parent options) as Hdistinct.
  split; [exact Hdistinct|].
  unfold takes_observations. rewrite first_registry.
  unfold declared_names in Hdistinct.
  replace (metricNames (after_factory parent options initial_state))
    with (names_after parent options initial_state) in * by done.
  destruct (four_inserted_lookup ∅ _ _ _ _
              (Prometheus.with_sample (version_labels (pkg_version parent))
                 (Constant 1) version_gauge)
              (duration_histogram options) (request_size_histogram options)
              (response_size_histogram options) Hdistinct)
    as (L1 & L2 & L3 & L4).
  rewrite L1, L2, L3, L4. by repeat split.
Qed.

(** The first call for the package [my-svc], version 2.1.2, with default
    options. *)
Lemma factory_registers_fresh_names_witness :
  Forall (fun name => Prometheus.validateMetricName name = true)
    (declared_names started) /\
  registry started !! "app_version" =
    Some (Gauge "The service version by package.json"
            ["version"; "major"; "minor"; "patch"]
            [([("version", Text "2.1.2"); ("major", NumberOf "2");
               ("minor", NumberOf "1"); ("patch", NumberOf "2")],
              Constant 1)]) /\
  registry started !! "http_request_size_bytes" =
    Some (Histogram "Size of HTTP requests in bytes"
            ["method"; "route"; "code"] default_sizeBuckets) /\
  takes_observations started "http_response_size_bytes" = true.
Proof.
  assert (Hvalid : Forall (fun name => Prometheus.validateMetricName name = true)
                     (declared_names started)).
  { vm_compute. repeat (apply Forall_cons_2; [reflexivity|]).
    apply Forall_nil_2. }
  split; [exact Hvalid|].
  destruct (factory_registers_fresh_names sample_package no_options)
    as (_ & H1 & _ & H3 & _ & _ & _ & H7); [by vm_compute | exact Hvalid |].
  split; [exact H1|]. split; [exact H3 | exact H7].
Defined.



(** ** Which requests are recorded *)

Section recording.

Implicit Types (req : Request) (res : Response) (st : State).

Lemma replace_placeholder_not_empty s v name :
  s <> "" -> JsString.replace s v (":" +:+ name) <> "".
Proof.
  intros Hs. unfold JsString.replace.
  destruct (JsString.split_first v s) as [[before after]|]; [|done].
  cbn [String.append JsString.get_substitution]. simpl.
  by destruct before.
Qed.

Lemma replace_params_not_empty entries label :
  label <> "" ->
  exists label', replace_params entries (Some label) = Ok (Some label') /\
                 label' <> "".
Proof.
  revert label. induction entries as [|[name value] rest IH]; intros label H.
  - by exists label.
  - cbn [replace_params replace_param]. simpl.
    apply IH. by apply replace_placeholder_not_empty.
Qed.

Lemma set_observed_nothing st : set_observed (observed st ++ []) st = st.
Proof. destruct st. unfold set_observed. simpl. by rewrite app_nil_r. Qed.

End recording.

(** A request that the middleware passes on is recorded whenever, at the
    finish, some source gives it a non-empty label, its [req.params] is not
    [null], and it is not an unmatched request with status 404: no parameter
    substitution can make the label empty.  So, when the three metrics are
    histograms declared with the labels of the module and both content
    lengths are finite, the three observations are made, under a non-empty
    route label. *)
Theorem labelled_source_is_recorded (req fin : Request) (res : Response)
  (st : State) (hd hq hs label : string) :
  url req <> metricsRoute st ->
  url req <> Some (ToString (metricsRoute st) +:+ ".json") ->
  responseTimeHistogram st = Some hd ->
  requestSizeHistogram st = Some hq ->
  responseSizeHistogram st = Some hs ->
  takes_observations st hd = true ->
  takes_observations st hq = true ->
  takes_observations st hs = true ->
  JsNumber.is_finite (JsNumber.parseInt_or_0 (reqContentLength req)) = true ->
  JsNumber.is_finite (JsNumber.parseInt_or_0 (resContentLength res)) = true ->
  select_route fin = Some label -> label <> "" ->
  params fin <> NullParams -> unrouted_404 fin = false ->
  exists label',
    label' <> "" /\ _getRoute fin = Ok (Some label') /\
    request_lifecycle req fin res st =
      (Ok tt,
       set_observed
         (observed st ++
          [ {| o_histogram := hq;
               o_labels := {| l_method := method fin; l_route := label';
                              l_code := statusCode res |};
               o_value :=
                 Size (JsNumber.parseInt_or_0 (reqContentLength req)) |};
            {| o_histogram := hd;
               o_labels := {| l_method := method req; l_route := label';
                              l_code := statusCode res |};
               o_value := ElapsedSeconds |};
            {| o_histogram := hs;
               o_labels := {| l_method := method fin; l_route := label';
                              l_code := statusCode res |};
               o_value :=
                 Size (JsNumber.parseInt_or_0 (resContentLength res)) |} ])
         st).
Proof.
  intros Hurl Hjson Hd Hq Hs Td Tq Ts Fq Fs Hsel Hne Hparams Hguard.
  assert (Hroute : exists label', _getRoute fin = Ok (Some label') /\ label' <> "").
  { rewrite getRoute_stages, Hsel, Hguard.
    destruct (params fin) as [| |entries]; [by exists label | done |].
    destruct (replace_params_not_empty entries label Hne) as (label' & E & H).
    exists label'. simpl. by rewrite E. }
  destruct Hroute as (label' & Hroute & Hne').
  exists label'. split; [done|]. split; [done|].
  rewrite (request_lifecycle_passed req fin res st hd Hurl Hjson Hd).
  set (m := {| timer := Prometheus.startTimer hd (method req);
               contentLength :=
                 JsNumber.parseInt_or_0 (reqContentLength req) |}).
  exact (handleResponse_labelled (at_finish (set_metrics m req) fin) res st
           label' hq hs m Hroute Hne' Hq Hs eq_refl Tq Td Ts Fq Fs).
Qed.

Lemma labelled_source_is_recorded_witness :
  select_route get_api_users_a = Some "/api/users/:id" /\
  params get_api_users_a <> NullParams /\
  unrouted_404 get_api_users_a = false /\
  exists label',
    label' <> "" /\ _getRoute get_api_users_a = Ok (Some label') /\
    length
      (observed (request_lifecycle get_api_users_a get_api_users_a
                   (response 200 None) started).2) = 3%nat.
Proof.
  split; [reflexivity|]. split; [discriminate|]. split; [reflexivity|].
  destruct (labelled_source_is_recorded get_api_users_a get_api_users_a
              (response 200 None) started "http_request_duration_seconds"
              "http_request_size_bytes" "http_response_size_bytes"
              "/api/users/:id")
    as (label' & H1 & H2 & H3); [vm_compute; congruence ..|].
  exists label'. split; [exact H1|]. split; [exact H2|].
  rewrite H3. reflexivity.
Defined.

(** The duration is observed on the histogram that was current when the
    request arrived, under the method read then; the two sizes are observed
    on the histograms that are current when the response finishes, under
    the method read then.  After a call of the factory in between that
    changed the names, one request is spread over histograms of both
    generations.  This is stated for the case in which the three metrics
    are, at the finish, histograms declared with the labels of the module,
    and both content lengths are finite. *)
Theorem duration_histogram_is_fixed_at_arrival (req fin : Request)
  (res : Response) (st1 st2 : State) (hd hq hs label : string) :
  url req <> metricsRoute st1 ->
  url req <> Some (ToString (metricsRoute st1) +:+ ".json") ->
  responseTimeHistogram st1 = Some hd ->
  requestSizeHistogram st2 = Some hq ->
  responseSizeHistogram st2 = Some hs ->
  takes_observations st2 hd = true ->
  takes_observations st2 hq = true ->
  takes_observations st2 hs = true ->
  JsNumber.is_finite (JsNumber.parseInt_or_0 (reqContentLength req)) = true ->
  JsNumber.is_finite (JsNumber.parseInt_or_0 (resContentLength res)) = true ->
  _getRoute fin = Ok (Some label) -> label <> "" ->
  exists req',
    middleware req st1 = (Ok (PassedOn req'), st1) /\
    on_finish (at_finish req' fin) res st2 =
      (Ok tt,
       set_observed
         (observed st2 ++
          [ {| o_histogram := hq;
               o_labels := {| l_method := method fin; l_route := label;
                              l_code := statusCode res |};
               o_value :=
                 Size (JsNumber.parseInt_or_0 (reqContentLength req)) |};
            {| o_histogram := hd;
               o_labels := {| l_method := method req; l_route := label;
                              l_code := statusCode res |};
               o_value := ElapsedSeconds |};
            {| o_histogram := hs;
               o_labels := {| l_method := method fin; l_route := label;
                              l_code := statusCode res |};
               o_value :=
                 Size (JsNumber.parseInt_or_0 (resContentLength res)) |} ])
         st2).
Proof.
  intros Hurl Hjson Hd Hq Hs Td Tq Ts Fq Fs Hroute Hne.
  eexists. split; [by apply middleware_passes|].
  unfold on_finish.
  set (m := {| timer := Prometheus.startTimer hd (method req);
               contentLength :=
                 JsNumber.parseInt_or_0 (reqContentLength req) |}).
  exact (handleResponse_labelled (at_finish (set_metrics m req) fin) res st2
           label hq hs m Hroute Hne Hq Hs eq_refl Tq Td Ts Fq Fs).
Qed.

(** A request arrives after a call of the factory with default options and
    finishes after a call that asked for unique names. *)
Lemma duration_histogram_is_fixed_at_arrival_witness :
  responseTimeHistogram started = Some "http_request_duration_seconds" /\
  requestSizeHistogram started_then_unique =
    Some "my_svc_http_request_size_bytes" /\
  exists req',
    middleware get_order started = (Ok (PassedOn req'), started) /\
    observed (on_finish (at_finish req' get_order) (response 200 (Some "340"))
                started_then_unique).2 =
    recorded "my_svc_http_request_size_bytes"
      "http_request_duration_seconds"
      "my_svc_http_response_size_bytes"
      {| l_method := "GET"; l_route := "/orders/:orderId"; l_code := 200 |}
      120 340.
Proof.
  split; [by vm_compute|]. split; [by vm_compute|].
  destruct (duration_histogram_is_fixed_at_arrival get_order get_order
              (response 200 (Some "340")) started started_then_unique
              "http_request_duration_seconds"
              "my_svc_http_request_size_bytes"
              "my_svc_http_response_size_bytes" "/orders/:orderId")
    as (req' & H1 & H2); [vm_compute; congruence ..|].
  exists req'. split; [exact H1|]. rewrite H2. by vm_compute.
Defined.

(** With the three histogram variables set to histograms declared with the
    labels of the module, every request leaves the module variables and the
    registry as they were and adds to the observations nothing, or, for a
    non-empty route label and a finite request length, the three
    observations when the response length is finite, and the first two,
    before a [TypeError], when it is not.  This holds also when the
    classifier throws. *)
Theorem request_records_at_most_three (req fin : Request) (res : Response)
  (st : State) (hd hq hs : string) :
  responseTimeHistogram st = Some hd ->
  requestSizeHistogram st = Some hq ->
  responseSizeHistogram st = Some hs ->
  takes_observations st hd = true ->
  takes_observations st hq = true ->
  takes_observations st hs = true ->
  exists extra,
    (request_lifecycle req fin res st).2 =
      set_observed (observed st ++ extra) st /\
    (extra = [] \/
     exists label,
       label <> "" /\ _getRoute fin = Ok (Some label) /\
       JsNumber.is_finite (JsNumber.parseInt_or_0 (reqContentLength req))
         = true /\
       ((JsNumber.is_finite (JsNumber.parseInt_or_0 (resContentLength res))
           = true /\
         (request_lifecycle req fin res st).1 = Ok tt /\
         extra =
         [ {| o_histogram := hq;
              o_labels := {| l_method := method fin; l_route := label;
                             l_code := statusCode res |};
              o_value :=
                Size (JsNumber.parseInt_or_0 (reqContentLength req)) |};
           {| o_histogram := hd;
              o_labels := {| l_method := method req; l_route := label;
                             l_code := statusCode res |};
              o_value := ElapsedSeconds |};
           {| o_histogram := hs;
              o_labels := {| l_method := method fin; l_route := label;
                             l_code := statusCode res |};
              o_value :=
                Size (JsNumber.parseInt_or_0 (resContentLength res)) |} ]) \/
        (JsNumber.is_finite (JsNumber.parseInt_or_0 (resContentLength res))
           = false /\
         (request_lifecycle req fin res st).1 = Throw TypeError /\
         extra =
         [ {| o_histogram := hq;
              o_labels := {| l_method := method fin; l_route := label;
                             l_code := statusCode res |};
              o_value :=
                Size (JsNumber.parseInt_or_0 (reqContentLength req)) |};
           {| o_histogram := hd;
              o_labels := {| l_method := method req; l_route := label;
                             l_code := statusCode res |};
              o_value := ElapsedSeconds |} ]))).
Proof.
  intros Hd Hq Hs Td Tq Ts.
  assert (Hnothing : forall r, request_lifecycle req fin res st = (r, st) ->
            (request_lifecycle req fin res st).2 =
            set_observed (observed st ++ []) st).
  { intros r E. by rewrite E, set_observed_nothing. }
  destruct (decide (url req = metricsRoute st)) as [Hurl|Hurl].
  { exists []. split; [|by left]. apply (Hnothing (Ok tt)).
    unfold request_lifecycle, middleware, mbind, M_mbind, M_bind, get. simpl.
    by rewrite bool_decide_eq_true_2. }
  destruct (decide (url req = Some (ToString (metricsRoute st) +:+ ".json")))
    as [Hjson|Hjson].
  { exists []. split; [|by left]. apply (Hnothing (Ok tt)).
    unfold request_lifecycle, middleware, mbind, M_mbind, M_bind, get. simpl.
    rewrite bool_decide_eq_false_2 by done.
    by rewrite bool_decide_eq_true_2. }
  pose proof (request_lifecycle_passed req fin res st hd Hurl Hjson Hd)
    as Hlife.
  set (m := {| timer := Prometheus.startTimer hd (method req);
               contentLength :=
                 JsNumber.parseInt_or_0 (reqContentLength req) |}) in Hlife.
  set (fin' := at_finish (set_metrics m req) fin) in Hlife.
  assert (Hsame : _getRoute fin' = _getRoute fin) by done.
  destruct (_getRoute fin) as [[label|]|e] eqn:Hroute.
  - destruct (decide (label = "")) as [->|Hne].
    { exists []. split; [|by left]. apply (Hnothing (Ok tt)). rewrite Hlife.
      by apply (handleResponse_unlabelled _ _ _ (Some "")). }
    destruct (JsNumber.is_finite
                (JsNumber.parseInt_or_0 (reqContentLength req))) eqn:Fq.
    2: { exists []. split; [|by left]. apply (Hnothing (Throw TypeError)).
         rewrite Hlife.
         exact (handleResponse_request_not_finite fin' res st label hq m
                  Hsame Hne Hq eq_refl Tq Fq). }
    destruct (JsNumber.is_finite
                (JsNumber.parseInt_or_0 (resContentLength res))) eqn:Fs.
    + eexists. rewrite Hlife.
      rewrite (handleResponse_labelled fin' res st label hq hs m
                 Hsame Hne Hq Hs eq_refl Tq Td Ts Fq Fs).
      split; [reflexivity|]. right. exists label.
      split; [done|]. split; [done|]. split; [done|]. left. by repeat split.
    + eexists. rewrite Hlife.
      rewrite (handleResponse_response_not_finite fin' res st label hq hs m
                 Hsame Hne Hq Hs eq_refl Tq Td Ts Fq Fs).
      split; [reflexivity|]. right. exists label.
      split; [done|]. split; [done|]. split; [done|]. right. by repeat split.
  - exists []. split; [|by left]. apply (Hnothing (Ok tt)). rewrite Hlife.
    by apply (handleResponse_unlabelled _ _ _ None).
  - exists []. split; [|by left]. apply (Hnothing (Throw e)). rewrite Hlife.
    by apply handleResponse_thrown.
Qed.

(** A request without any source of a label whose [req.params] has an
    entry: the classifier throws and nothing is recorded. *)
Lemma request_records_at_most_three_witness :
  responseTimeHistogram started = Some "http_request_duration_seconds" /\
  takes_observations started "http_request_duration_seconds" = true /\
  exists extra,
    (request_lifecycle get_without_source get_without_source
       (response 500 None) started).2 =
    set_observed (observed started ++ extra) started.
Proof.
  split; [by vm_compute|]. split; [by vm_compute|].
  destruct (request_records_at_most_three get_without_source
              get_without_source (response 500 None) started
              "http_request_duration_seconds"
              "http_request_size_bytes" "http_response_size_bytes")
    as (extra & H & _); [by vm_compute ..|].
  by exists extra.
Defined.

(** ** Edge cases of the classifier *)

(** The classifier throws exactly when [req.params] is [null], or when
    [req.params] has an entry while the label is [undefined], which is so
    when the swagger descriptor has no path or when descriptor, base path and
    URL are all missing.  What it throws is a [TypeError]. *)
Theorem classifier_throws_exactly_when (req : Request) :
  (_getRoute req = Throw TypeError <->
   params req = NullParams \/
   (exists entry rest, params req = ParamsObject (entry :: rest)) /\
   ((exists sw, swagger req = Some sw /\ apiPath sw = None) \/
    (swagger req = None /\ baseUrl req = None /\ truthy (url req) = false))) /\
  (forall e, _getRoute req = Throw e -> e = TypeError).
Proof.
  rewrite <- select_route_undefined.
  assert (Hcases :
    (_getRoute req = Throw TypeError /\ substitution_defined req = false) \/
    (exists v, _getRoute req = Ok v) /\ substitution_defined req = true).
  { destruct (substitution_defined req) eqn:Hdef.
    - right. split; [by apply getRoute_defined | done].
    - left. split; [|done].
      unfold substitution_defined in Hdef. rewrite getRoute_stages.
      destruct (params req) as [| |[|entry rest]]; try done.
      apply bool_decide_eq_false in Hdef.
      destruct (select_route req) as [label|]; [by destruct Hdef|done]. }
  split.
  - split.
    + intros Hthrow. destruct Hcases as [[_ Hdef]|[[v E] _]]; [|congruence].
      unfold substitution_defined in Hdef.
      destruct (params req) as [| |[|entry rest]]; try done; [by left|].
      right. split; [by exists entry, rest|].
      apply bool_decide_eq_false in Hdef.
      destruct (select_route req); [|done]. by destruct Hdef.
    + intros Hcond. destruct Hcases as [[E _]|[_ Hdef]]; [done|].
      unfold substitution_defined in Hdef.
      destruct Hcond as [Hnull|[(entry & rest & Hp) Hsel]].
      * by rewrite Hnull in Hdef.
      * rewrite Hp, Hsel in Hdef. apply bool_decide_eq_true in Hdef.
        by destruct Hdef.
  - intros e He. destruct Hcases as [[E _]|[[v E] _]]; congruence.
Qed.

(** A path parameter whose value is the empty string, as the wildcard of an
    Express route gives for an empty match, is found at the very start of
    the label: its placeholder is put in front of the label. *)
Theorem empty_parameter_value_prefixes_label (req : Request)
  (label name : string) :
  select_route req = Some label ->
  params req = ParamsObject [(name, Some "")] ->
  JsString.dollar_free name = true ->
  unrouted_404 req = false ->
  _getRoute req = Ok (Some (":" +:+ name +:+ label)).
Proof.
  intros Hsel Hparams Hname Hguard.
  rewrite getRoute_stages, Hsel, Hparams, Hguard. simpl.
  unfold JsString.replace.
  replace (JsString.split_first "" label) with (Some ("", label))
    by (by destruct label).
  cbn [String.append]. simpl.
  by rewrite get_substitution_dollar_free.
Qed.

Lemma empty_parameter_value_prefixes_label_witness :
  _getRoute
    (request (Some "/files") None (Some {| path := "/*" |}) (Some "/")
       (ParamsObject [("0", Some "")]) (Some (response 200 None))) =
  Ok (Some ":0/files/*").
Proof.
  apply (empty_parameter_value_prefixes_label _ "/files/*" "0");
    reflexivity.
Defined.

(** ** The project name in the metric names *)

Section project_name.


End project_name.


(** ** The middleware after the factory *)

(** After the first call of the factory on the loaded module, when it
    returned and the four names are valid metric names, the middleware does
    not throw.  The metrics path is the [metricsPath] of the options, and
    [/metrics] when that is absent or empty: a request for it gets the text
    snapshot, a request for it with [.json] the records, and every other
    request is passed on with a timer on the duration histogram of the
    current names and with its content length. *)
Theorem middleware_after_factory (parent : Package) (options : Options)
  (req : Request) :
  let st := (module_exports parent options initial_state).2 in
  let metricsPath :=
    match metricsPath options with
    | None | Some "" => "/metrics"
    | Some p => p
    end in
  (module_exports parent options initial_state).1 = Ok tt ->
  Forall (fun name => Prometheus.validateMetricName name = true)
    (declared_names st) ->
  (url req = Some metricsPath ->
   middleware req st =
     (Ok (Replied (EndText Prometheus.contentType
                     (Prometheus.TextOf (Prometheus.snapshot st)))), st)) /\
  (url req = Some (metricsPath +:+ ".json") ->
   middleware req st =
     (Ok (Replied (SendJson (Prometheus.snapshot st))), st)) /\
  (url req <> Some metricsPath ->
   url req <> Some (metricsPath +:+ ".json") ->
   middleware req st =
     (Ok (PassedOn
            (set_metrics
               {| timer :=
                    Prometheus.startTimer
                      (http_request_duration_seconds (metricNames st))
                      (method req);
                  contentLength :=
                    JsNumber.parseInt_or_0 (reqContentLength req) |}
               req)), st)).
Proof.
  intros st path _ _.
  assert (Hroute : metricsRoute st = Some path).
  { subst st path. rewrite module_exports_run. simpl.
    destruct (metricsPath options) as [[|c p]|]; done. }
  assert (Hd : responseTimeHistogram st =
               Some (http_request_duration_seconds (metricNames st))).
  { subst st. by rewrite module_exports_run. }
  clearbody st path. split; [|split].
  - intros Hurl. unfold middleware, mbind, M_mbind, M_bind, get. simpl.
    by rewrite Hroute, bool_decide_eq_true_2.
  - intros Hurl. unfold middleware, mbind, M_mbind, M_bind, get. simpl.
    rewrite Hroute, Hurl. rewrite bool_decide_eq_false_2.
    + by rewrite bool_decide_eq_true_2.
    + intros [= H]. by apply append_fixed in H.
  - intros Hurl Hjson. apply middleware_passes; [| |done]; by rewrite Hroute.
Qed.

Lemma middleware_after_factory_witness :
  url (get_url "/status") = Some "/status" /\
  middleware (get_url "/status") started_at_status =
  (Ok (Replied (EndText Prometheus.contentType
                  (Prometheus.TextOf (Prometheus.snapshot started_at_status)))),
   started_at_status).
Proof.
  split; [reflexivity|].
  destruct (middleware_after_factory sample_package status_path
              (get_url "/status")) as (H & _).
  - by vm_compute.
  - vm_compute. repeat (apply Forall_cons_2; [reflexivity|]).
    apply Forall_nil_2.
  - exact (H eq_refl).
Defined.

(** ** Later calls of the factory *)



